(** * pushover-notify: the persistent store and the scheduling worker

    A shallow embedding of [internal/model], [internal/storage] and
    [internal/worker] of pushover-notify, and the properties of the design
    document stated over it.

    Conventions.
    - A Go [time.Time] is the number of nanoseconds elapsed since the zero
      time (January 1, year 1, 00:00:00 UTC), an unbounded integer; a
      [time.Duration] is an [int64] count of nanoseconds whose product wraps.
    - A Go [int] is a 64-bit integer kept in [Z].
    - The slice [[]*model.Notification] is a list of records.  Every pointer
      the program stores in it is freshly allocated (by the decoder or by the
      create handler; the update handler stores a pointer back where it was
      read) and none is nil, so a pointer is identified with the position of
      its record in the store's list and a write through the pointer is an
      update of the list at that position.
    - The functions of the Go libraries the program calls ([encoding/json],
      [time.ParseDuration], the HTTP delivery call) are members of type
      classes: every theorem holds for all their implementations.
    - The store's lock is not modelled: operations run one after the other. *)

From Stdlib Require Import ZArith String Ascii Bool Lia.
From stdpp Require Import base list strings gmap.

Local Open Scope string_scope.
Local Open Scope Z_scope.

(** ** Package [time] (the part the program uses) *)

Module GoTime.

Definition Time := Z.
Definition Duration := Z.

Definition minDuration : Duration := - 2 ^ 63.
Definition maxDuration : Duration := 2 ^ 63 - 1.

(** Two's-complement reduction of an integer to [int64]. *)
Definition wrap64 (z : Z) : Z := (z + 2 ^ 63) mod 2 ^ 64 - 2 ^ 63.

Definition inInt64 (z : Z) : Prop := minDuration <= z <= maxDuration.

Definition Nanosecond : Duration := 1.
Definition Microsecond : Duration := 1000 * Nanosecond.
Definition Millisecond : Duration := 1000 * Microsecond.
Definition Second : Duration := 1000 * Millisecond.
Definition Minute : Duration := 60 * Second.
Definition Hour : Duration := 60 * Minute.

(** [time.Time{}] *)
Definition zero : Time := 0.

Definition IsZero (t : Time) : bool := t =? 0.
Definition Before (t u : Time) : bool := t <? u.
Definition After (t u : Time) : bool := u <? t.
Definition Add (t : Time) (d : Duration) : Time := t + d.

(** [t.Sub(u)] saturates at the smallest and largest [Duration]. *)
Definition Sub (t u : Time) : Duration :=
  Z.max minDuration (Z.min maxDuration (t - u)).

(** [t.Truncate(d)] rounds [t] down to a multiple of [d] since the zero
    time, and returns [t] unchanged when [d <= 0]. *)
Definition Truncate (t : Time) (d : Duration) : Time :=
  if d <=? 0 then t else t - t mod d.

(** The product of two [Duration]s, an [int64] multiplication. *)
Definition mul (a b : Duration) : Duration := wrap64 (a * b).

(** [n++] on an [int]. *)
Definition incr (n : Z) : Z := wrap64 (n + 1).

End GoTime.

(** ** Package [model] *)

Module model.

Definition SendStatus := string.
Definition StatusPending : SendStatus := "Pending".
Definition StatusDone : SendStatus := "Done".

Module Notification.
Record t := mk {
  ID : string;
  Content : string;
  ScheduledTime : GoTime.Time;
  Status : SendStatus;
  SendsCount : Z;
  LastPushTime : GoTime.Time;
  RepeatTimes : Z;
  RepeatInterval : string
}.

(** The zero value [model.Notification{}]. *)
Definition zero : t := mk "" "" GoTime.zero "" 0 GoTime.zero 0 "".

Definition with_Status (v : SendStatus) (n : t) : t :=
  mk (ID n) (Content n) (ScheduledTime n) v (SendsCount n)
     (LastPushTime n) (RepeatTimes n) (RepeatInterval n).
Definition with_SendsCount (v : Z) (n : t) : t :=
  mk (ID n) (Content n) (ScheduledTime n) (Status n) v
     (LastPushTime n) (RepeatTimes n) (RepeatInterval n).
Definition with_LastPushTime (v : GoTime.Time) (n : t) : t :=
  mk (ID n) (Content n) (ScheduledTime n) (Status n) (SendsCount n)
     v (RepeatTimes n) (RepeatInterval n).
Definition with_RepeatTimes (v : Z) (n : t) : t :=
  mk (ID n) (Content n) (ScheduledTime n) (Status n) (SendsCount n)
     (LastPushTime n) v (RepeatInterval n).
Definition with_RepeatInterval (v : string) (n : t) : t :=
  mk (ID n) (Content n) (ScheduledTime n) (Status n) (SendsCount n)
     (LastPushTime n) (RepeatTimes n) v.
End Notification.

Module Settings.
Record t := mk {
  PushoverToken : string;
  PushoverUser : string;
  RepeatTimes : Z;
  RepeatInterval : string;
  Password : string
}.

(** The zero value [model.Settings{}]. *)
Definition zero : t := mk "" "" 0 "" "".

Definition with_RepeatTimes (v : Z) (s : t) : t :=
  mk (PushoverToken s) (PushoverUser s) v (RepeatInterval s) (Password s).
Definition with_RepeatInterval (v : string) (s : t) : t :=
  mk (PushoverToken s) (PushoverUser s) (RepeatTimes s) v (Password s).
End Settings.

Record AppSchema := mkAppSchema {
  Settings : Settings.t;
  Notifications : list Notification.t
}.

End model.

Import model.

(** ** The library functions the program calls *)

(** [encoding/json] at the two types the store decodes and the one it
    encodes.  [json.Unmarshal(data, &s.Data)] decodes into the value the store
    already holds, so it takes that value; it yields the value held
    afterwards (also when it fails half way) and whether it returned no
    error.  Documents that make the decoder store a nil pointer (the
    literal null, at the top or as an element of the list) are left out. *)
Class JSON := {
  Unmarshal_AppSchema : string -> AppSchema -> AppSchema * bool;
  Unmarshal_Notifications : string -> option (list Notification.t);
  MarshalIndent : AppSchema -> option string
}.

(** [time.ParseDuration]: [None] stands for a returned error. *)
Class DurationSyntax := {
  ParseDuration : string -> option GoTime.Duration
}.

(** The delivery call [SendMessage] of [pushover.Client].  The transport is
    outside the program: [Port] is its state, and a call yields whether it
    returned no error. *)
Class Delivery := {
  Port : Type;
  SendMessage : string -> string -> string -> string -> Port -> bool * Port
}.

(** ** Package [storage] *)

Module storage.

Inductive error :=
| ErrNotFound      (* notification not found *)
| ErrReadFile      (* failed to read file *)
| ErrUnmarshal     (* failed to unmarshal data *)
| ErrMarshal       (* failed to marshal data *)
| ErrWriteFile.    (* failed to create storage directory / to write file *)

(** The backing file as [os.Stat] and [os.ReadFile] see it. *)
Inductive File :=
| Absent                                       (* both report IsNotExist *)
| Inaccessible                                 (* both fail otherwise *)
| Unreadable (modTime : GoTime.Time)           (* only the read fails *)
| Regular (modTime : GoTime.Time) (data : string).

(** The file system: the backing file, whether the directory and the file
    can be written, and the modification time a write stamps. *)
Record Disk := mkDisk {
  file : File;
  writable : bool;
  clock : GoTime.Time
}.

Inductive ReadResult :=
| ReadNotExist
| ReadFailed
| ReadOk (data : string).

Definition os_Stat (d : Disk) : option GoTime.Time :=
  match file d with
  | Absent | Inaccessible => None
  | Unreadable m | Regular m _ => Some m
  end.

Definition os_ReadFile (d : Disk) : ReadResult :=
  match file d with
  | Absent => ReadNotExist
  | Inaccessible | Unreadable _ => ReadFailed
  | Regular _ data => ReadOk data
  end.

(** [os.MkdirAll] followed by [os.WriteFile]; [None] is a returned error. *)
Definition os_WriteFile (data : string) (d : Disk) : option Disk :=
  if writable d
  then Some (mkDisk (Regular (clock d) data) (writable d) (clock d))
  else None.

(** [Store] without its lock and its path: one store, one backing file. *)
Record Store := mkStore {
  Data : AppSchema;
  lastLoadedTime : GoTime.Time
}.

(** What an operation of the store reads and writes. *)
Record World := mkWorld {
  disk : Disk;
  store : Store
}.

Definition notifications (w : World) : list Notification.t :=
  Notifications (Data (store w)).

Definition with_Data (d : AppSchema) (w : World) : World :=
  mkWorld (disk w) (mkStore d (lastLoadedTime (store w))).
Definition with_lastLoadedTime (m : GoTime.Time) (w : World) : World :=
  mkWorld (disk w) (mkStore (Data (store w)) m).
Definition with_Notifications (ns : list Notification.t) (w : World) : World :=
  with_Data (mkAppSchema (Settings (Data (store w))) ns) w.

(** The store has seen the file's last modification: [CheckDiskChanges]
    finds nothing to reload. *)
Definition inSync (w : World) : bool :=
  match os_Stat (disk w) with
  | Some m => negb (GoTime.After m (lastLoadedTime (store w)))
  | None => true
  end.

(** [NewStore] *)
Definition NewStore : Store :=
  mkStore (mkAppSchema Settings.zero []) GoTime.zero.

(** [model.Settings{RepeatTimes: 3, RepeatInterval: "30m"}] *)
Definition defaultSettings : Settings.t := Settings.mk "" "" 3 "30m" "".

(** The body of the migration loop of [Load]. *)
Definition backfill (globalRepeatTimes : Z) (globalRepeatInterval : string)
    (n : Notification.t) : Notification.t :=
  let n :=
    if Notification.RepeatTimes n =? 0
    then Notification.with_RepeatTimes globalRepeatTimes n else n in
  if String.eqb (Notification.RepeatInterval n) ""
  then Notification.with_RepeatInterval globalRepeatInterval n else n.

(** The position of the first record whose ID is [id], as the loops of
    [GetNotification], [UpdateNotification] and [DeleteNotification] find
    it. *)
Fixpoint indexOfID (id : string) (ns : list Notification.t) : option nat :=
  match ns with
  | [] => None
  | n :: rest =>
      if String.eqb (Notification.ID n) id then Some 0%nat
      else option_map S (indexOfID id rest)
  end.

(** [n.Status != model.StatusDone] *)
Definition isPending (n : Notification.t) : bool :=
  negb (String.eqb (Notification.Status n) StatusDone).

(** The pointers [GetPending] collects: the positions, from [i] on, of the
    records whose status is not Done. *)
Fixpoint pendingFrom (i : nat) (ns : list Notification.t) : list nat :=
  match ns with
  | [] => []
  | n :: rest =>
      if String.eqb (Notification.Status n) StatusDone
      then pendingFrom (S i) rest
      else i :: pendingFrom (S i) rest
  end.

Section Operations.
Context {json : JSON}.

Definition Load (w : World) : option error * World :=
  let w :=
    match os_Stat (disk w) with
    | Some m => with_lastLoadedTime m w
    | None => w
    end in
  match os_ReadFile (disk w) with
  | ReadNotExist =>
      (None, with_Data (mkAppSchema defaultSettings []) w)
  | ReadFailed => (Some ErrReadFile, w)
  | ReadOk data =>
      if (String.length data =? 0)%nat
      then (None, with_Data (mkAppSchema defaultSettings []) w)
      else
        let '(d, ok) := Unmarshal_AppSchema data (Data (store w)) in
        if negb ok then
          (* Attempt migration from old []Notification format *)
          match Unmarshal_Notifications data with
          | Some oldNotifs =>
              (None, with_Data (mkAppSchema defaultSettings oldNotifs) w)
          | None => (Some ErrUnmarshal, with_Data d w)
          end
        else
          (* Set defaults *)
          let s := Settings d in
          let s :=
            if Settings.RepeatTimes s =? 0
            then Settings.with_RepeatTimes 3 s else s in
          let s :=
            if String.eqb (Settings.RepeatInterval s) ""
            then Settings.with_RepeatInterval "30m" s else s in
          (* Migration/Defaults for legacy data *)
          let globalRepeatTimes := Settings.RepeatTimes s in
          let globalRepeatInterval := Settings.RepeatInterval s in
          let globalRepeatTimes :=
            if globalRepeatTimes =? 0 then 3 else globalRepeatTimes in
          let globalRepeatInterval :=
            if String.eqb globalRepeatInterval "" then "30m"
            else globalRepeatInterval in
          let ns :=
            map (backfill globalRepeatTimes globalRepeatInterval)
                (Notifications d) in
          (None, with_Data (mkAppSchema s ns) w)
  end.

Definition Save (w : World) : option error * World :=
  match MarshalIndent (Data (store w)) with
  | None => (Some ErrMarshal, w)
  | Some data =>
      match os_WriteFile data (disk w) with
      | None => (Some ErrWriteFile, w)
      | Some d' =>
          let w' := mkWorld d' (store w) in
          (* Update lastLoadedTime so we don't reload our own change *)
          match os_Stat d' with
          | Some m => (None, with_lastLoadedTime m w')
          | None => (None, w')
          end
      end
  end.

Definition CheckDiskChanges (w : World) : World :=
  match os_Stat (disk w) with
  | None => w
  | Some m =>
      let needsReload := GoTime.After m (lastLoadedTime (store w)) in
      if needsReload then snd (Load w) else w
  end.

Definition AddNotification (n : Notification.t) (w : World)
  : option error * World :=
  Save (with_Notifications (notifications w ++ [n]) w).


Definition GetSettings (w : World) : Settings.t * World :=
  let w := CheckDiskChanges w in
  (Settings (Data (store w)), w).

Definition GetAllNotifications (w : World)
  : list Notification.t * World :=
  let w := CheckDiskChanges w in
  (notifications w, w).

Definition GetPending (w : World) : list nat * World :=
  let w := CheckDiskChanges w in
  (pendingFrom 0 (notifications w), w).

(** The record returned is the one the returned pointer designates. *)
Definition GetNotification (id : string) (w : World)
  : (Notification.t + error) * World :=
  match indexOfID id (notifications w) with
  | Some i =>
      match notifications w !! i with
      | Some n => (inl n, w)
      | None => (inr ErrNotFound, w)
      end
  | None => (inr ErrNotFound, w)
  end.

Definition UpdateNotification (updated : Notification.t) (w : World)
  : option error * World :=
  match indexOfID (Notification.ID updated) (notifications w) with
  | Some i => Save (with_Notifications (<[i := updated]> (notifications w)) w)
  | None => (Some ErrNotFound, w)
  end.

Definition DeleteNotification (id : string) (w : World)
  : option error * World :=
  match indexOfID id (notifications w) with
  | Some i =>
      let ns := notifications w in
      Save (with_Notifications (take i ns ++ drop (S i) ns) w)
  | None => (Some ErrNotFound, w)
  end.

End Operations.

End storage.

(** ** Package [worker] *)

Module worker.
Import storage.

(** *** The wake channel *)

(** A [chan struct{}]: its capacity and the number of buffered signals. *)
Record Chan := mkChan {
  cap : nat;
  len : nat
}.

Definition make_chan (c : nat) : Chan := mkChan c 0.

(** A send that can proceed at once, and a receive that can. *)
Definition trySend (c : Chan) : option Chan :=
  if (len c <? cap c)%nat then Some (mkChan (cap c) (S (len c))) else None.

Definition tryRecv (c : Chan) : option Chan :=
  match len c with
  | O => None
  | S k => Some (mkChan (cap c) k)
  end.

(** What a call does to its caller. *)
Inductive Outcome (A : Type) :=
| Returns (a : A)
| Blocks.
Arguments Returns {A} a.
Arguments Blocks {A}.

(** The bare statement [ch <- struct{}{}], for comparison. *)
Definition send (c : Chan) : Outcome Chan :=
  match trySend c with
  | Some c' => Returns c'
  | None => Blocks
  end.

Record Client := mkClient {
  Token : string;
  User : string
}.

(** [Worker] without its store (the [World]); of the callback only whether
    one is registered matters. *)
Record Worker := mkWorker {
  client : Client;
  updateChan : Chan;
  onUpdate : bool
}.

Definition NewWorker : Worker :=
  mkWorker (mkClient "" "") (make_chan 1) false.


(** [Refresh]: a [select] with one send case and a [default]. *)
Definition Refresh (w : Worker) : Outcome Worker :=
  match trySend (updateChan w) with
  | Some c => Returns (mkWorker (client w) c (onUpdate w))
  | None => Returns w   (* default: a signal is already pending *)
  end.

(** [n] calls of [Refresh] in a row. *)
Fixpoint refreshes (n : nat) (w : Worker) : Outcome Worker :=
  match n with
  | O => Returns w
  | S k =>
      match Refresh w with
      | Returns w' => refreshes k w'
      | Blocks => Blocks
      end
  end.

(** *** The timer of [Start] *)

Inductive Timer :=
| Stopped
| Armed (duration : GoTime.Duration).

(** Step 2 of the loop of [Start]: [nextRun] is what the pass returned and
    [now] the clock read after it. *)
Definition setTimer (nextRun now : GoTime.Time) : Timer :=
  if GoTime.IsZero nextRun then Stopped
  else
    let duration := GoTime.Sub nextRun now in
    let duration := if duration <? 0 then 0 else duration in
    Armed duration.

(** Step 3 of the loop of [Start]: the [select] over shutdown, the wake
    channel and the timer takes any one of the cases that are ready. *)
Inductive Wake :=
| Shutdown
| Signal
| TimerFired.

Inductive wait (ctxDone : bool) (timerFired : bool) (c : Chan)
  : Wake -> Chan -> Prop :=
| wait_done : ctxDone = true -> wait ctxDone timerFired c Shutdown c
| wait_signal c' : tryRecv c = Some c' -> wait ctxDone timerFired c Signal c'
| wait_timer : timerFired = true -> wait ctxDone timerFired c TimerFired c.

(** *** The evaluation pass *)

Section Pass.
Context {json : JSON} {syntax : DurationSyntax} {delivery : Delivery}.

Definition effectiveInterval (n : Notification.t) : GoTime.Duration :=
  match ParseDuration (Notification.RepeatInterval n) with
  | Some d => d
  | None => 30 * GoTime.Minute
  end.

Definition effectiveTimes (n : Notification.t) : Z :=
  if Notification.RepeatTimes n =? 0 then 3 else Notification.RepeatTimes n.

(** The anchored instant [ScheduledTime.Truncate(time.Minute).Add(
    repeatInterval * time.Duration(SendsCount))]. *)
Definition anchored (n : Notification.t) : GoTime.Time :=
  GoTime.Add (GoTime.Truncate (Notification.ScheduledTime n) GoTime.Minute)
             (GoTime.mul (effectiveInterval n) (Notification.SendsCount n)).

(** When the notification should be sent next. *)
Definition nextSendTime (n : Notification.t) : GoTime.Time :=
  if Notification.SendsCount n =? 0
  then GoTime.Truncate (Notification.ScheduledTime n) GoTime.Minute
  else anchored n.

Definition isDue (now : GoTime.Time) (n : Notification.t) : bool :=
  negb (GoTime.Before now (nextSendTime n)).

(** [if earliestNext.IsZero() || t.Before(earliestNext)
     { earliestNext = t }] *)
Definition track (t earliestNext : GoTime.Time) : GoTime.Time :=
  if GoTime.IsZero earliestNext || GoTime.Before t earliestNext
  then t else earliestNext.

(** The variables the loop of [checkAndProcess] carries, next to the
    records it writes through the pointers. *)
Record Vars := mkVars {
  port : Port;
  saveNeeded : bool;
  earliestNext : GoTime.Time
}.

(** The body of the loop, for the record [n] a pointer designates. *)
Definition body (cl : Client) (now : GoTime.Time) (n : Notification.t)
    (v : Vars) : Notification.t * Vars :=
  let repeatTimes := effectiveTimes n in
  let nextSend := nextSendTime n in
  if negb (GoTime.Before now nextSend) then
    (* IT IS DUE *)
    let '(n, p, save) :=
      if Notification.SendsCount n <? repeatTimes then
        let '(ok, p) :=
          SendMessage (Token cl) (User cl) "Reminder"
                      (Notification.Content n) (port v) in
        if negb ok
        then (Notification.with_LastPushTime now n, p, true)
        else (Notification.with_LastPushTime now
                (Notification.with_SendsCount
                   (GoTime.incr (Notification.SendsCount n)) n), p, true)
      else (n, port v, saveNeeded v) in
    if Notification.SendsCount n >=? repeatTimes
    then (Notification.with_Status StatusDone n,
          mkVars p true (earliestNext v))
    else
      let nextForThis := anchored n in
      (n, mkVars p save (track nextForThis (earliestNext v)))
  else
    (* Not due yet, track its next time *)
    (n, mkVars (port v) (saveNeeded v) (track nextSend (earliestNext v))).

(** The loop over the pointers [GetPending] returned. *)
Fixpoint loop (cl : Client) (now : GoTime.Time) (pending : list nat)
    (ns : list Notification.t) (v : Vars) : list Notification.t * Vars :=
  match pending with
  | [] => (ns, v)
  | i :: rest =>
      match ns !! i with
      | Some n =>
          let '(n', v') := body cl now n v in
          loop cl now rest (<[i := n']> ns) v'
      | None => loop cl now rest ns v
      end
  end.

(** The same loop told over the store's list: records whose status is Done
    are passed over, every other record goes through the body in turn
    ([loop_pendingFrom] below proves the two equal). *)
Fixpoint sweep (cl : Client) (now : GoTime.Time) (ns : list Notification.t)
    (v : Vars) : list Notification.t * Vars :=
  match ns with
  | [] => ([], v)
  | n :: rest =>
      if String.eqb (Notification.Status n) StatusDone then
        let '(rest', v') := sweep cl now rest v in (n :: rest', v')
      else
        let '(n', v1) := body cl now n v in
        let '(rest', v2) := sweep cl now rest v1 in (n' :: rest', v2)
  end.

(** What a pass leaves behind and returns. *)
Record Pass := mkPass {
  self : Worker;
  world : World;
  transport : Port;
  hookCalled : bool;
  nextRun : GoTime.Time
}.

Definition checkAndProcess (wk : Worker) (now : GoTime.Time) (w : World)
    (p : Port) : Pass :=
  let '(settings, w) := GetSettings w in
  (* If credentials missing, we can't send *)
  if String.eqb (Settings.PushoverToken settings) ""
     || String.eqb (Settings.PushoverUser settings) ""
  then mkPass wk w p false GoTime.zero
  else
    let cl := mkClient (Settings.PushoverToken settings)
                       (Settings.PushoverUser settings) in
    let wk := mkWorker cl (updateChan wk) (onUpdate wk) in
    let '(pending, w) := GetPending w in
    let '(ns, v) := loop cl now pending (notifications w)
                         (mkVars p false GoTime.zero) in
    let w := with_Notifications ns w in
    if saveNeeded v then
      match Save w with
      | (Some _, w') => mkPass wk w' (port v) false (earliestNext v)
      | (None, w') => mkPass wk w' (port v) (onUpdate wk) (earliestNext v)
      end
    else mkPass wk w (port v) false (earliestNext v).

(** Steps 1 and 2 of one iteration of the loop of [Start]: a pass at
    [now], then the timer set from the clock [now'] read after it. *)
Definition iteration (wk : Worker) (now now' : GoTime.Time) (w : World)
    (p : Port) : Pass * Timer :=
  let r := checkAndProcess wk now w p in
  (r, setTimer (nextRun r) now').

(** Both delivery credentials are set. *)
Definition configured (s : Settings.t) : Prop :=
  Settings.PushoverToken s <> "" /\ Settings.PushoverUser s <> "".

(** The client as a pass sets it up from the settings. *)
Definition clientOf (s : Settings.t) : Client :=
  mkClient (Settings.PushoverToken s) (Settings.PushoverUser s).

(** The transport fails to deliver the message [m] of the configured
    account, whatever state it is in. *)
Definition refuses (s : Settings.t) (m : string) : Prop :=
  forall q : Port,
    fst (SendMessage (Settings.PushoverToken s) (Settings.PushoverUser s)
                     "Reminder" m q) = false.

(** The slot of the attempt to make and the slot after it lie after the
    zero time (which [track] and [setTimer] read as no time at all). *)
Definition afterZero (n : Notification.t) : Prop :=
  0 < anchored n
  /\ 0 < anchored (Notification.with_SendsCount
                     (GoTime.incr (Notification.SendsCount n)) n).


End Pass.

End worker.

(** ** Package [worker], the earlier version

    The loop of the earlier [checkAndProcess]: one policy, that of the
    settings, serves all records, and after the first send the next one
    follows the time of the last push.  The loop is told over the records
    [GetPending] returned. *)

Module earlier.
Import worker.

Module Notification.
Record t := mk {
  ID : string;
  Content : string;
  ScheduledTime : GoTime.Time;
  Status : SendStatus;
  SendsCount : Z;
  LastPushTime : GoTime.Time
}.
Definition with_Status (x : SendStatus) (n : t) : t :=
  mk (ID n) (Content n) (ScheduledTime n) x (SendsCount n) (LastPushTime n).
Definition with_SendsCount (x : Z) (n : t) : t :=
  mk (ID n) (Content n) (ScheduledTime n) (Status n) x (LastPushTime n).
Definition with_LastPushTime (x : GoTime.Time) (n : t) : t :=
  mk (ID n) (Content n) (ScheduledTime n) (Status n) (SendsCount n) x.
End Notification.

Module Settings.
Record t := mk {
  PushoverToken : string;
  PushoverUser : string;
  MaxRetries : Z;
  RetryInterval : string;
  Password : string
}.
End Settings.

Section Pass.
Context {syntax : DurationSyntax} {delivery : Delivery}.

Definition retryInterval (settings : Settings.t) : GoTime.Duration :=
  match ParseDuration (Settings.RetryInterval settings) with
  | Some d => d
  | None => 30 * GoTime.Minute
  end.

Definition maxRetries (settings : Settings.t) : Z :=
  if Settings.MaxRetries settings =? 0 then 3
  else Settings.MaxRetries settings.

(** When the notification should be sent next. *)
Definition nextSendTime (settings : Settings.t) (n : Notification.t)
  : GoTime.Time :=
  if Notification.SendsCount n =? 0 then Notification.ScheduledTime n
  else GoTime.Add (Notification.LastPushTime n) (retryInterval settings).

(** The body of the loop. *)
Definition body (settings : Settings.t) (now : GoTime.Time)
    (n : Notification.t) (v : Vars) : Notification.t * Vars :=
  let nextSend := nextSendTime settings n in
  if negb (GoTime.Before now nextSend) then
    (* IT IS DUE *)
    let '(n, p, save) :=
      if Notification.SendsCount n <? maxRetries settings then
        let '(ok, p) :=
          SendMessage (Settings.PushoverToken settings)
                      (Settings.PushoverUser settings) "Reminder"
                      (Notification.Content n) (port v) in
        if negb ok
        then (Notification.with_LastPushTime now n, p, true)
        else (Notification.with_LastPushTime now
                (Notification.with_SendsCount
                   (GoTime.incr (Notification.SendsCount n)) n), p, true)
      else (n, port v, saveNeeded v) in
    if Notification.SendsCount n >=? maxRetries settings
    then (Notification.with_Status StatusDone n,
          mkVars p true (earliestNext v))
    else
      let nextForThis :=
        GoTime.Add (Notification.LastPushTime n) (retryInterval settings) in
      (n, mkVars p save (track nextForThis (earliestNext v)))
  else
    (* Not due yet, track its next time *)
    (n, mkVars (port v) (saveNeeded v) (track nextSend (earliestNext v))).

Fixpoint loop (settings : Settings.t) (now : GoTime.Time)
    (pending : list Notification.t) (v : Vars)
  : list Notification.t * Vars :=
  match pending with
  | [] => ([], v)
  | n :: rest =>
      let '(n', v1) := body settings now n v in
      let '(rest', v2) := loop settings now rest v1 in
      (n' :: rest', v2)
  end.

End Pass.

End earlier.

(** ** The design document's reading of the effective repeat policy

    Section 4.2, step 2: a notification's own values, or the global defaults
    of Settings when unset. *)

Module Spec.

Section Effective.
Context {syntax : DurationSyntax}.

Definition effectiveTimes (settings : Settings.t) (n : Notification.t) : Z :=
  if Notification.RepeatTimes n =? 0
  then Settings.RepeatTimes settings
  else Notification.RepeatTimes n.

Definition effectiveInterval (settings : Settings.t) (n : Notification.t)
  : option GoTime.Duration :=
  match ParseDuration (Notification.RepeatInterval n) with
  | Some d => Some d
  | None => ParseDuration (Settings.RepeatInterval settings)
  end.

End Effective.

End Spec.

(** ** A concrete environment

    Implementations of the three library interfaces on which the model can
    be run.  They serve to evaluate the program on concrete inputs; the
    theorems below are proved for every implementation. *)

Module Sample.
Import storage worker.

Definition digit (c : ascii) : option Z :=
  let k := Z.of_nat (nat_of_ascii c) in
  if (48 <=? k) && (k <=? 57) then Some (k - 48) else None.

Fixpoint leadingInt (s : string) (acc : Z) : Z * string :=
  match s with
  | EmptyString => (acc, s)
  | String c rest =>
      match digit c with
      | Some d => leadingInt rest (acc * 10 + d)
      | None => (acc, s)
      end
  end.

Definition unitMap (u : string) : option Z :=
  if String.eqb u "ns" then Some GoTime.Nanosecond
  else if String.eqb u "us" then Some GoTime.Microsecond
  else if String.eqb u "ms" then Some GoTime.Millisecond
  else if String.eqb u "s" then Some GoTime.Second
  else if String.eqb u "m" then Some GoTime.Minute
  else if String.eqb u "h" then Some GoTime.Hour
  else None.

(** [time.ParseDuration] on the empty string (an error) and on decimal
    digits followed by one unit name, the form the web layer writes; other
    strings are not in the domain of this implementation and it is not
    applied to them. *)
Definition parseDigitsUnit (s : string) : option GoTime.Duration :=
  match s with
  | EmptyString => None
  | String c _ =>
      match digit c with
      | None => None
      | Some _ =>
          let '(v, rest) := leadingInt s 0 in
          match unitMap rest with
          | Some u =>
              if v * u >? GoTime.maxDuration then None else Some (v * u)
          | None => None
          end
      end
  end.

Definition durations : DurationSyntax :=
  {| ParseDuration := parseDigitsUnit |}.

(** A transport that is down: every call fails.  Its state is the log of
    the messages it was asked to deliver. *)
Definition down : Delivery :=
  {| Port := list string;
     SendMessage := fun _ _ _ message log => (false, (log ++ [message])%list) |}.

(** A transport that is up: every call succeeds. *)
Definition up : Delivery :=
  {| Port := list string;
     SendMessage := fun _ _ _ message log => (true, (log ++ [message])%list) |}.

(** [encoding/json] on the documents used below.  The empty object sets no
    field of the value decoded into and is not a list; the two arrays are
    not an object, and decode as the empty list and as a list of one record
    whose fields are all zero; any other text is taken to be malformed.  The
    encoder is only asked to produce a document: it writes the empty
    object. *)
Definition codec : JSON :=
  {| Unmarshal_AppSchema := fun data old =>
       if String.eqb data "{}" then (old, true) else (old, false);
     Unmarshal_Notifications := fun data =>
       if String.eqb data "[]" then Some []
       else if String.eqb data "[{}]" then Some [Notification.zero]
       else None;
     MarshalIndent := fun _ => Some "{}" |}.

(** A disk without the backing file, and one holding [data]. *)
Definition noFile : Disk := mkDisk Absent true 0.
Definition holding (modTime : GoTime.Time) (data : string) : Disk :=
  mkDisk (Regular modTime data) true modTime.

(** An instant: minute [m] (since the zero time) plus [s] seconds. *)
Definition at_ (m s : Z) : GoTime.Time :=
  m * GoTime.Minute + s * GoTime.Second.

(** A pending reminder scheduled at [t], sent [k] times so far. *)
Definition reminder (id : string) (t : GoTime.Time) (k times : Z)
    (interval : string) : Notification.t :=
  Notification.mk id "water the plants" t StatusPending k GoTime.zero
                  times interval.

Definition credentials (times : Z) (interval : string) : Settings.t :=
  Settings.mk "token" "user" times interval "secret".

Definition inMemory (s : Settings.t) (ns : list Notification.t) : World :=
  mkWorld noFile (mkStore (mkAppSchema s ns) GoTime.zero).

End Sample.


(** ** Package [web] (the decisions of the handlers)

    Of a request the handlers read the method, form values and cookies; of
    a response only what decides it is kept (the redirect target, the error
    code, the template, the cookie set).  Template rendering and the
    fan-out to the listening browsers are left out.  The identifiers
    [uuid.New] draws and the clock readings are arguments. *)

Module web.
Import storage worker.

(** [fmt.Sscanf(s, "%d", &x)] and [time.ParseInLocation] with the layout and
    the location of the handlers: [None] stands for a returned error, which
    leaves the variable scanned into as it was. *)
Class Forms := {
  Sscanf_d : string -> option Z;
  ParseInLocation : string -> option GoTime.Time
}.

Definition isDigit (c : ascii) : bool :=
  (48 <=? nat_of_ascii c)%nat && (nat_of_ascii c <=? 57)%nat.

Definition isUnit (c : ascii) : bool :=
  Ascii.eqb c "m" || Ascii.eqb c "h" || Ascii.eqb c "d".

Fixpoint allDigits (s : string) : bool :=
  match s with
  | EmptyString => true
  | String c rest => isDigit c && allDigits rest
  end.

(** The number a string of decimal digits writes. *)
Fixpoint decimal (acc : Z) (s : string) : Z :=
  match s with
  | EmptyString => acc
  | String c rest => decimal (acc * 10 + (Z.of_nat (nat_of_ascii c) - 48)) rest
  end.

(** The match of the pattern [^(\d+)([mhd])$]: the digits and the unit, when
    the string is one or more digits followed by one of [m], [h], [d]. *)
Fixpoint submatch (s : string) : option (string * string) :=
  match s with
  | EmptyString => None
  | String c rest =>
      match rest with
      | EmptyString => None
      | String u EmptyString =>
          if isDigit c && isUnit u
          then Some (String c EmptyString, String u EmptyString) else None
      | _ =>
          if isDigit c then
            match submatch rest with
            | Some (ds, u) => Some (String c ds, u)
            | None => None
            end
          else None
      end
  end.

(** [parseRepeatInterval].  The verb [%d] applied to a string of digits
    yields the number they write, or fails, leaving the zero of the named
    result, when that number does not fit an [int]. *)
Definition parseRepeatInterval (interval : string) : Z * string :=
  match submatch interval with
  | Some (ds, u) =>
      let value := if decimal 0 ds <=? GoTime.maxDuration
                   then decimal 0 ds else 0 in
      (value, u)
  | None => (30, "m")
  end.

(** [combineRepeatInterval] *)
Definition combineRepeatInterval (value unit' : string) : string :=
  let value := if String.eqb value "" then "30" else value in
  let unit' := if String.eqb unit' "" then "m" else unit' in
  (value ++ unit')%string.

Record Request := mkRequest {
  Method : string;
  FormValue : string -> string;
  Cookie : string -> option string
}.

Inductive Action :=
| Redirect (url : string)
| Error (code : Z)
| Render (template : string)
| RenderPartial (template : string)
| Silent.

(** What a handler answers: the action, and the session cookie it sets with
    its expiry, if it sets one. *)
Record Response := mkResponse {
  action : Action;
  setCookie : option (string * GoTime.Time)
}.

Definition plain (a : Action) : Response := mkResponse a None.

(** [Server]: the store, the worker and the sessions. *)
Record Server := mkServer {
  world : World;
  engine : Worker;
  sessions : gmap string GoTime.Time
}.

Definition with_world (w : World) (s : Server) : Server :=
  mkServer w (engine s) (sessions s).

(** [s.worker.Refresh()] *)
Definition refresh (s : Server) : Server :=
  match Refresh (engine s) with
  | Returns wk => mkServer (world s) wk (sessions s)
  | Blocks => s
  end.

Section Handlers.
Context {json : JSON} {forms : Forms}.

Definition authMiddleware (next : Request -> Server -> Response * Server)
    (now : GoTime.Time) (r : Request) (s : Server) : Response * Server :=
  let '(settings, w) := GetSettings (world s) in
  let s := with_world w s in
  if String.eqb (Settings.Password settings) "" then
    (plain (Redirect "/setup"), s)
  else
    match Cookie r "session_token" with
    | None => (plain (Redirect "/login"), s)
    | Some value =>
        if String.eqb value "" then (plain (Redirect "/login"), s)
        else
          match sessions s !! value with
          | None => (plain (Redirect "/login"), s)
          | Some expiry =>
              if GoTime.After now expiry
              then (plain (Redirect "/login"), s)
              else next r s
          end
    end.


(** [sessionToken] is what [uuid.New().String()] returns; [now] and [now']
    are the two readings of the clock. *)
Definition handleLogin (sessionToken : string) (now now' : GoTime.Time)
    (r : Request) (s : Server) : Response * Server :=
  let '(settings, w) := GetSettings (world s) in
  let s := with_world w s in
  if String.eqb (Settings.Password settings) "" then
    (plain (Redirect "/setup"), s)
  else if String.eqb (Method r) "GET" then (plain (Render "login.html"), s)
  else if String.eqb (Method r) "POST" then
    let password := FormValue r "password" in
    if negb (String.eqb password (Settings.Password settings)) then
      (plain (Render "login.html"), s)
    else
      let s :=
        mkServer (world s) (engine s)
          (<[sessionToken := GoTime.Add now (24 * GoTime.Hour)]> (sessions s)) in
      (mkResponse (Redirect "/")
         (Some (sessionToken, GoTime.Add now' (24 * GoTime.Hour))), s)
  else (plain Silent, s).

Definition handleLogout (now : GoTime.Time) (r : Request) (s : Server)
  : Response * Server :=
  let s :=
    match Cookie r "session_token" with
    | Some value => mkServer (world s) (engine s) (delete value (sessions s))
    | None => s
    end in
  (mkResponse (Redirect "/login")
     (Some ("", GoTime.Add now (-1 * GoTime.Hour))), s).

(** The record [handleAPINotifications] builds from the form, [id] being
    what [uuid.New().String()] returns and [scheduledTime] the parsed
    date. *)
Definition newNotification (id : string) (scheduledTime : GoTime.Time)
    (r : Request) : Notification.t :=
  let scheduledTime := GoTime.Truncate scheduledTime GoTime.Minute in
  let repeatTimes :=
    if negb (String.eqb (FormValue r "repeat_times") "") then
      match Sscanf_d (FormValue r "repeat_times") with
      | Some k => k
      | None => 0
      end
    else 0 in
  let repeatTimes := if repeatTimes =? 0 then 3 else repeatTimes in
  Notification.mk id (FormValue r "content") scheduledTime StatusPending 0
    GoTime.zero repeatTimes
    (combineRepeatInterval (FormValue r "repeat_interval_value")
                           (FormValue r "repeat_interval_unit")).

Definition handleAPINotifications (id : string) (r : Request) (s : Server)
  : Response * Server :=
  if negb (String.eqb (Method r) "POST") then (plain (Error 405), s)
  else
    match ParseInLocation (FormValue r "datetime") with
    | None => (plain (Error 400), s)
    | Some scheduledTime =>
        let n := newNotification id scheduledTime r in
        match AddNotification n (world s) with
        | (Some _, w') => (plain (Error 500), with_world w' s)
        | (None, w') =>
            let s := refresh (with_world w' s) in
            let '(_, w'') := GetAllNotifications (world s) in
            (plain (RenderPartial "notifications_list"), with_world w'' s)
        end
    end.

(** The fields [handleAPIUpdateNotification] writes into the record. *)
Definition editNotification (r : Request) (n : Notification.t)
  : Notification.t :=
  let scheduledTime :=
    match ParseInLocation (FormValue r "datetime") with
    | Some t => GoTime.Truncate t GoTime.Minute
    | None => Notification.ScheduledTime n
    end in
  let repeatTimes :=
    match Sscanf_d (FormValue r "repeat_times") with
    | Some k => if 0 <? k then k else Notification.RepeatTimes n
    | None => Notification.RepeatTimes n
    end in
  Notification.mk (Notification.ID n) (FormValue r "content") scheduledTime
    (Notification.Status n) (Notification.SendsCount n)
    (Notification.LastPushTime n) repeatTimes
    (combineRepeatInterval (FormValue r "repeat_interval_value")
                           (FormValue r "repeat_interval_unit")).

Definition handleAPIUpdateNotification (id : string) (r : Request)
    (s : Server) : Response * Server :=
  match GetNotification id (world s) with
  | (inr _, _) => (plain (Error 404), s)
  | (inl n, _) =>
      match UpdateNotification (editNotification r n) (world s) with
      | (Some _, w') => (plain (Error 500), with_world w' s)
      | (None, w') =>
          let s := refresh (with_world w' s) in
          let '(_, w'') := GetAllNotifications (world s) in
          (plain (RenderPartial "notifications_list"), with_world w'' s)
      end
  end.



End Handlers.

End web.

(** ** Sample requests

    Used to run the handlers in the examples. *)

Module Browser.
Import storage worker web.

(** A form reader that scans a string of decimal digits as the number it
    writes and fails on any other string, and that reads a date written as
    the number of minutes since the zero time plus one second. *)
Definition fields : Forms :=
  {| Sscanf_d := fun s =>
       if allDigits s && negb (String.eqb s "") then Some (decimal 0 s)
       else None;
     ParseInLocation := fun s =>
       if allDigits s && negb (String.eqb s "")
       then Some (Sample.at_ (decimal 0 s) 1) else None |}.

Fixpoint valueOf (form : list (string * string)) (name : string) : string :=
  match form with
  | [] => ""
  | (k, v) :: rest => if String.eqb k name then v else valueOf rest name
  end.

(** A request with the given method and form, without cookies. *)
Definition submit (method : string) (form : list (string * string))
  : Request :=
  mkRequest method (valueOf form) (fun _ => None).

(** A GET carrying the session cookie. *)
Definition carrying (token : string) : Request :=
  mkRequest "GET" (fun _ => "")
    (fun name => if String.eqb name "session_token" then Some token
                 else None).

(** A server over the store [w], with a fresh worker and no session. *)
Definition serving (w : World) : Server := mkServer w NewWorker ∅.

End Browser.

(** ** Notions used to state further properties of the store and the pass *)

Module Derived.
Import storage worker.

(** What [Load] does to a decoded AppSchema before it stores it: the
    defaults of the settings, then the migration of the records. *)
Definition migrate (d : AppSchema) : AppSchema :=
  let s := Settings d in
  let s := if Settings.RepeatTimes s =? 0
           then Settings.with_RepeatTimes 3 s else s in
  let s := if String.eqb (Settings.RepeatInterval s) ""
           then Settings.with_RepeatInterval "30m" s else s in
  let times := if Settings.RepeatTimes s =? 0 then 3
               else Settings.RepeatTimes s in
  let interval := if String.eqb (Settings.RepeatInterval s) "" then "30m"
                  else Settings.RepeatInterval s in
  mkAppSchema s (map (backfill times interval) (Notifications d)).

(** The record a successful delivery leaves, before the check for Done. *)
Definition delivered (now : GoTime.Time) (n : Notification.t)
  : Notification.t :=
  Notification.with_LastPushTime now
    (Notification.with_SendsCount (GoTime.incr (Notification.SendsCount n)) n).

(** The first record carrying the id. *)
Definition firstWithID (id : string) (ns : list Notification.t)
  : option Notification.t :=
  List.find (fun n => String.eqb (Notification.ID n) id) ns.

Section Pass.
Context {syntax : DurationSyntax} {delivery : Delivery}.

(** The transport delivers the message [m] of the configured account,
    whatever state it is in. *)
Definition accepts (s : Settings.t) (m : string) : Prop :=
  forall q : Port,
    fst (SendMessage (Settings.PushoverToken s) (Settings.PushoverUser s)
                     "Reminder" m q) = true.


(** The earliest of the slots of the pending records, if there is one. *)
Fixpoint earliestSlot (ns : list Notification.t) : option GoTime.Time :=
  match ns with
  | [] => None
  | n :: rest =>
      if isPending n then
        match earliestSlot rest with
        | Some t => Some (Z.min (nextSendTime n) t)
        | None => Some (nextSendTime n)
        end
      else earliestSlot rest
  end.

End Pass.

(** How a handler that changes the records ends: either it answers with the
    list, the store is in sync with the file and the worker has been
    signalled, or it answers with an error and neither the file nor the
    wake channel has been touched.  The sessions stay in both cases. *)
Definition listOrUntouched (s : web.Server) (res : web.Response * web.Server)
  : Prop :=
  web.sessions (snd res) = web.sessions s
  /\ ((fst res = web.plain (web.RenderPartial "notifications_list")
       /\ inSync (web.world (snd res)) = true
       /\ Refresh (web.engine s) = Returns (web.engine (snd res)))
      \/ ((exists code, fst res = web.plain (web.Error code))
          /\ web.engine (snd res) = web.engine s
          /\ disk (web.world (snd res)) = disk (web.world s))).

End Derived.


(** * Properties *)

Import storage worker.

Local Open Scope list_scope.

(** ** Integer and clock arithmetic *)

Lemma wrap64_inInt64 (z : Z) : GoTime.inInt64 z -> GoTime.wrap64 z = z.
Proof.
  unfold GoTime.inInt64, GoTime.minDuration, GoTime.maxDuration, GoTime.wrap64.
  intros Hz. rewrite Z.mod_small by lia. lia.
Qed.

Lemma mul_exact (a b : Z) : GoTime.inInt64 (a * b) -> GoTime.mul a b = a * b.
Proof. apply wrap64_inInt64. Qed.

Lemma mul_0_r (a : Z) : GoTime.mul a 0 = 0.
Proof. unfold GoTime.mul. rewrite Z.mul_0_r. reflexivity. Qed.

Lemma Minute_pos : 0 < GoTime.Minute.
Proof. reflexivity. Qed.

Lemma Truncate_Minute (t : GoTime.Time) :
  GoTime.Truncate t GoTime.Minute = t - t mod GoTime.Minute.
Proof. reflexivity. Qed.

Lemma Truncate_Minute_bounds (t : GoTime.Time) :
  GoTime.Truncate t GoTime.Minute <= t < GoTime.Truncate t GoTime.Minute + GoTime.Minute.
Proof.
  rewrite Truncate_Minute.
  pose proof (Z.mod_pos_bound t GoTime.Minute Minute_pos). lia.
Qed.

Lemma Truncate_Minute_whole (t : GoTime.Time) :
  GoTime.Truncate t GoTime.Minute mod GoTime.Minute = 0.
Proof.
  rewrite Truncate_Minute.
  rewrite Zminus_mod, Z.mod_mod by (pose proof Minute_pos; lia).
  rewrite Z.sub_diag. reflexivity.
Qed.

(** ** The anchored schedule *)

Section Anchoring.
Context {syntax : DurationSyntax}.

Lemma nextSendTime_anchored (n : Notification.t) :
  nextSendTime n = anchored n.
Proof.
  unfold nextSendTime, anchored.
  destruct (Z.eqb_spec (Notification.SendsCount n) 0) as [E | _]; [| reflexivity].
  rewrite E, mul_0_r. unfold GoTime.Add. lia.
Qed.

Lemma isDue_iff (now : GoTime.Time) (n : Notification.t) :
  isDue now n = true <-> nextSendTime n <= now.
Proof.
  unfold isDue, GoTime.Before. rewrite negb_true_iff, Z.ltb_ge. reflexivity.
Qed.

End Anchoring.

(** ** The store *)

Section StoreFacts.
Context {json : JSON}.

Lemma indexOfID_None (id : string) (ns : list Notification.t) :
  indexOfID id ns = None <-> Forall (fun n => Notification.ID n <> id) ns.
Proof.
  induction ns as [| n rest IH]; simpl.
  - split; [constructor | reflexivity].
  - destruct (String.eqb_spec (Notification.ID n) id) as [E | NE].
    + split; [discriminate |]. intros HF. inversion HF; subst. contradiction.
    + destruct (indexOfID id rest) as [i |]; simpl.
      * split; [discriminate |]. intros HF. inversion HF as [| ? ? _ HF']; subst.
        apply IH in HF'. discriminate.
      * split; [| reflexivity]. intros _. constructor; [exact NE |].
        apply IH. reflexivity.
Qed.

Lemma indexOfID_Some (id : string) (ns : list Notification.t) (i : nat) :
  indexOfID id ns = Some i ->
  exists n, ns !! i = Some n /\ Notification.ID n = id
            /\ Forall (fun m => Notification.ID m <> id) (take i ns).
Proof.
  revert i. induction ns as [| n rest IH]; simpl; intros i Hi; [discriminate |].
  destruct (String.eqb_spec (Notification.ID n) id) as [E | NE].
  - injection Hi as <-. exists n. repeat split; [exact E | constructor].
  - destruct (indexOfID id rest) as [j |] eqn:Ej; simpl in Hi; [| discriminate].
    injection Hi as <-. destruct (IH j eq_refl) as (m & Hm & Hid & Hpre).
    exists m. repeat split; [exact Hm | exact Hid |].
    simpl. constructor; assumption.
Qed.

Lemma Save_Data (w : World) : Data (store (snd (Save w))) = Data (store w).
Proof.
  unfold Save. destruct (MarshalIndent _); [| reflexivity].
  destruct (os_WriteFile _ _) as [d' |]; [| reflexivity].
  destruct (os_Stat d'); reflexivity.
Qed.

Lemma Save_inSync (w : World) :
  inSync w = true -> inSync (snd (Save w)) = true.
Proof.
  unfold Save. destruct (MarshalIndent _) as [data |]; [| easy].
  unfold os_WriteFile. destruct (writable (disk w)); [| easy].
  intros _. unfold inSync, os_Stat, GoTime.After. simpl.
  rewrite Z.ltb_irrefl. reflexivity.
Qed.

(** A store in sync is what every read accessor that checks the disk
    reads. *)
Lemma CheckDiskChanges_inSync (w : World) :
  inSync w = true -> CheckDiskChanges w = w.
Proof.
  unfold inSync, CheckDiskChanges. destruct (os_Stat (disk w)) as [m |]; [| reflexivity].
  intros Hs. apply negb_true_iff in Hs. rewrite Hs. reflexivity.
Qed.

Lemma Load_disk (w : World) : disk (snd (Load w)) = disk w.
Proof.
  unfold Load. destruct (os_Stat (disk w)) as [m |]; simpl;
    (destruct (os_ReadFile (disk w)) as [| | data]; [reflexivity | reflexivity |]);
    (destruct (String.length data =? 0)%nat; [reflexivity |]);
    (destruct (Unmarshal_AppSchema data (Data (store w))) as [d ok]);
    (destruct ok; simpl; [reflexivity |]);
    (destruct (Unmarshal_Notifications data); reflexivity).
Qed.

Lemma Load_lastLoadedTime (w : World) (m : GoTime.Time) :
  os_Stat (disk w) = Some m -> lastLoadedTime (store (snd (Load w))) = m.
Proof.
  intros Hm. unfold Load. rewrite Hm. simpl.
  destruct (os_ReadFile (disk w)) as [| | data]; [reflexivity | reflexivity |].
  destruct (String.length data =? 0)%nat; [reflexivity |].
  destruct (Unmarshal_AppSchema data (Data (store w))) as [d ok].
  destruct ok; simpl; [reflexivity |].
  destruct (Unmarshal_Notifications data); reflexivity.
Qed.

(** [CheckDiskChanges] brings any store in sync, so that every accessor
    that starts with it reads a store in sync. *)
Lemma CheckDiskChanges_syncs (w : World) : inSync (CheckDiskChanges w) = true.
Proof.
  unfold CheckDiskChanges.
  destruct (os_Stat (disk w)) as [m |] eqn:Hm.
  - destruct (GoTime.After m (lastLoadedTime (store w))) eqn:Ha.
    + unfold inSync. rewrite Load_disk, Hm, (Load_lastLoadedTime w m Hm).
      unfold GoTime.After. rewrite Z.ltb_irrefl. reflexivity.
    + unfold inSync. rewrite Hm, Ha. reflexivity.
  - unfold inSync. rewrite Hm. reflexivity.
Qed.

Lemma with_Notifications_inSync (ns : list Notification.t) (w : World) :
  inSync (with_Notifications ns w) = inSync w.
Proof. reflexivity. Qed.

(** [GetNotification] reads the records held in memory and nothing else:
    it neither looks at the disk nor changes the store. *)
Lemma GetNotification_reads_memory (id : string) (w : World) :
  snd (GetNotification id w) = w
  /\ forall d, fst (GetNotification id (mkWorld d (store w)))
               = fst (GetNotification id w).
Proof.
  unfold GetNotification, notifications. split.
  - destruct (indexOfID _ _) as [i |]; [| reflexivity].
    destruct (_ !! i); reflexivity.
  - intros d. simpl. destruct (indexOfID _ _) as [i |]; [| reflexivity].
    destruct (_ !! i); reflexivity.
Qed.

(** C10.  When no record of the store carries the id, [UpdateNotification]
    and [DeleteNotification] return the not-found error and hand back the
    world they were given: the list in memory, the time of the last load and
    the disk are the ones before the call, [Save] having not run. *)
Theorem missing_id_leaves_store (w : World) (id : string)
    (updated : Notification.t) :
  (forall n, n ∈ notifications w -> Notification.ID n <> id) ->
  Notification.ID updated = id ->
  UpdateNotification updated w = (Some ErrNotFound, w)
  /\ DeleteNotification id w = (Some ErrNotFound, w).
Proof.
  intros Hfresh Hid.
  assert (Hnone : indexOfID id (notifications w) = None).
  { apply indexOfID_None, Forall_forall. exact Hfresh. }
  unfold UpdateNotification, DeleteNotification.
  rewrite Hid, Hnone. split; reflexivity.
Qed.

(** When the id is present the mutators do reach [Save]: on a writable disk
    the file is rewritten. *)
Lemma DeleteNotification_found (w : World) (id : string) (i : nat) (data : string) :
  indexOfID id (notifications w) = Some i ->
  writable (disk w) = true ->
  MarshalIndent
    (Data (store (with_Notifications
                    (take i (notifications w) ++ drop (S i) (notifications w)) w)))
    = Some data ->
  fst (DeleteNotification id w) = None
  /\ file (disk (snd (DeleteNotification id w))) = Regular (clock (disk w)) data
  /\ notifications (snd (DeleteNotification id w))
     = (take i (notifications w) ++ drop (S i) (notifications w))%list.
Proof.
  intros Hi Hw Hm. unfold DeleteNotification. rewrite Hi.
  unfold Save. rewrite Hm. unfold os_WriteFile. simpl. rewrite Hw. simpl.
  repeat split.
Qed.

End StoreFacts.

(** Updating or deleting the id [b] in a store that holds only [a], on a
    disk that already has a file: nothing moves. *)
Lemma missing_id_leaves_store_witness :
  let w := mkWorld (Sample.holding 7 "{}")
             (mkStore (mkAppSchema (Sample.credentials 3 "30m")
                         [Sample.reminder "a" (Sample.at_ 1000 0) 0 3 "30m"]) 7) in
  let updated := Sample.reminder "b" (Sample.at_ 2000 0) 0 5 "1h" in
  UpdateNotification (json := Sample.codec) updated w = (Some ErrNotFound, w)
  /\ DeleteNotification (json := Sample.codec) "b" w = (Some ErrNotFound, w).
Proof.
  intros w updated.
  apply (missing_id_leaves_store (json := Sample.codec) w "b" updated).
  - intros n Hn. apply list_elem_of_singleton in Hn. subst n. discriminate.
  - reflexivity.
Defined.

(** ** Loading *)

Section Loading.
Context {json : JSON}.

(** Run [Load] on a disk whose file is known. *)
Ltac load_on Hf :=
  unfold Load, os_Stat, os_ReadFile; rewrite Hf; simpl; rewrite ?Hf; simpl.

Lemma length_zero_empty (s : string) : (String.length s =? 0)%nat = true <-> s = "".
Proof.
  destruct s; simpl; split; intros E; try reflexivity; discriminate.
Qed.

(** What [Load] does with a file it could read and that is not empty. *)
Lemma Load_content (w : World) (m : GoTime.Time) (data : string) :
  file (disk w) = Regular m data -> data <> "" ->
  Load w =
    let w1 := with_lastLoadedTime m w in
    let '(d, ok) := Unmarshal_AppSchema data (Data (store w)) in
    if ok then
      let s := Settings d in
      let s := if Settings.RepeatTimes s =? 0
               then Settings.with_RepeatTimes 3 s else s in
      let s := if String.eqb (Settings.RepeatInterval s) ""
               then Settings.with_RepeatInterval "30m" s else s in
      let times := if Settings.RepeatTimes s =? 0 then 3
                   else Settings.RepeatTimes s in
      let interval := if String.eqb (Settings.RepeatInterval s) "" then "30m"
                      else Settings.RepeatInterval s in
      (None, with_Data (mkAppSchema s (map (backfill times interval)
                                           (Notifications d))) w1)
    else
      match Unmarshal_Notifications data with
      | Some l => (None, with_Data (mkAppSchema defaultSettings l) w1)
      | None => (Some ErrUnmarshal, with_Data d w1)
      end.
Proof.
  intros Hf Hne. load_on Hf.
  destruct (Nat.eqb_spec (String.length data) 0) as [E | _].
  - exfalso. apply Hne. apply length_zero_empty. rewrite E. reflexivity.
  - destruct (Unmarshal_AppSchema data (Data (store w))) as [d ok].
    destruct ok; reflexivity.
Qed.

(** C8.  [Load] on a missing file and on an empty file returns no error and
    leaves an empty list under the default settings, whose repeat count is 3
    and whose interval is 30m.  On other content that does not decode as an
    AppSchema it decodes a bare list of notifications and, when that
    succeeds, returns no error and wraps the list with the default settings.
    Of a file it could read it reports an error exactly when both decodings
    fail. *)
Theorem Load_fallbacks (w : World) :
  let fresh := mkAppSchema defaultSettings [] in
  (Settings.RepeatTimes defaultSettings = 3
   /\ Settings.RepeatInterval defaultSettings = "30m")
  /\ (file (disk w) = Absent -> Load w = (None, with_Data fresh w))
  /\ (forall m, file (disk w) = Regular m "" ->
        Load w = (None, with_Data fresh (with_lastLoadedTime m w)))
  /\ (forall m data l,
        file (disk w) = Regular m data -> data <> "" ->
        snd (Unmarshal_AppSchema data (Data (store w))) = false ->
        Unmarshal_Notifications data = Some l ->
        Load w = (None, with_Data (mkAppSchema defaultSettings l)
                                  (with_lastLoadedTime m w)))
  /\ (forall m data,
        file (disk w) = Regular m data ->
        (exists e, fst (Load w) = Some e) <->
        (data <> ""
         /\ snd (Unmarshal_AppSchema data (Data (store w))) = false
         /\ Unmarshal_Notifications data = None)).
Proof.
  intros fresh. split; [split; reflexivity |]. split.
  { intros Hf. load_on Hf. reflexivity. }
  split.
  { intros m Hf. load_on Hf. reflexivity. }
  split.
  { intros m data l Hf Hne Hbad Hl. rewrite (Load_content w m data Hf Hne).
    destruct (Unmarshal_AppSchema data (Data (store w))) as [d ok].
    simpl in Hbad. subst ok. rewrite Hl. reflexivity. }
  intros m data Hf. destruct (String.eqb_spec data "") as [-> | Hne].
  { load_on Hf. split.
    - intros [e He]. discriminate.
    - intros [Hne _]. contradiction. }
  rewrite (Load_content w m data Hf Hne).
  destruct (Unmarshal_AppSchema data (Data (store w))) as [d ok]. simpl.
  destruct ok.
  { split; [intros [e He]; discriminate | intros (_ & Hk & _); discriminate]. }
  destruct (Unmarshal_Notifications data) as [l |]; simpl.
  - split; [intros [e He]; discriminate | intros (_ & _ & Hk); discriminate].
  - split; [intros _; repeat split; assumption | intros _; eexists; reflexivity].
Qed.

(** A file [Load] cannot read (for another reason than its absence) is the
    one other source of an error. *)
Lemma Load_unreadable (w : World) :
  file (disk w) = Inaccessible \/ (exists m, file (disk w) = Unreadable m) ->
  fst (Load w) = Some ErrReadFile
  /\ Data (store (snd (Load w))) = Data (store w).
Proof.
  intros [Hf | [m Hf]]; load_on Hf; split; reflexivity.
Qed.

(** When the content decodes as an AppSchema, the migration runs: no
    notification is left with a zero repeat count or an empty interval. *)
Lemma Load_schema_backfilled (w : World) (m : GoTime.Time) (data : string) :
  file (disk w) = Regular m data -> data <> "" ->
  snd (Unmarshal_AppSchema data (Data (store w))) = true ->
  fst (Load w) = None
  /\ forall n, n ∈ notifications (snd (Load w)) ->
       Notification.RepeatTimes n <> 0 /\ Notification.RepeatInterval n <> "".
Proof.
  intros Hf Hne Hok. rewrite (Load_content w m data Hf Hne).
  destruct (Unmarshal_AppSchema data (Data (store w))) as [d ok].
  simpl in Hok. subst ok. cbv zeta. split; [reflexivity |].
  intros n Hn. unfold notifications in Hn. simpl in Hn.
  apply list_elem_of_fmap in Hn. destruct Hn as (n0 & -> & _).
  set (s1 := if Settings.RepeatTimes (Settings d) =? 0
             then Settings.with_RepeatTimes 3 (Settings d) else Settings d).
  set (s2 := if String.eqb (Settings.RepeatInterval s1) ""
             then Settings.with_RepeatInterval "30m" s1 else s1).
  set (times := if Settings.RepeatTimes s2 =? 0 then 3 else Settings.RepeatTimes s2).
  set (interval := if String.eqb (Settings.RepeatInterval s2) "" then "30m"
                   else Settings.RepeatInterval s2).
  assert (Ht : times <> 0).
  { subst times. destruct (Z.eqb_spec (Settings.RepeatTimes s2) 0); [discriminate | assumption]. }
  assert (Hi : interval <> "").
  { subst interval.
    destruct (String.eqb_spec (Settings.RepeatInterval s2) ""); [discriminate | assumption]. }
  unfold backfill. split.
  - destruct (Z.eqb_spec (Notification.RepeatTimes n0) 0) as [E | NE];
      match goal with |- context [String.eqb ?a ?b] => destruct (String.eqb a b) end;
      simpl; assumption.
  - destruct (Z.eqb_spec (Notification.RepeatTimes n0) 0) as [E | NE];
      match goal with |- context [String.eqb ?a ?b] => destruct (String.eqb_spec a b) end;
      simpl in *; assumption.
Qed.

(** The legacy path returns before the migration: the decoded list is stored
    as it was read. *)
Lemma Load_legacy_verbatim (w : World) (m : GoTime.Time) (data : string)
    (l : list Notification.t) :
  file (disk w) = Regular m data -> data <> "" ->
  snd (Unmarshal_AppSchema data (Data (store w))) = false ->
  Unmarshal_Notifications data = Some l ->
  fst (Load w) = None /\ notifications (snd (Load w)) = l.
Proof.
  intros Hf Hne Hbad Hl. rewrite (Load_content w m data Hf Hne).
  destruct (Unmarshal_AppSchema data (Data (store w))) as [d ok].
  simpl in Hbad. subst ok. rewrite Hl. split; reflexivity.
Qed.

End Loading.

(** [Load] with the store freshly made by [NewStore]: no file; an empty
    file; the legacy document of an empty list; and a document neither
    decoder accepts. *)
Lemma Load_fallbacks_witness :
  let fresh := mkAppSchema defaultSettings [] in
  let start := fun d => mkWorld d NewStore in
  Load (json := Sample.codec) (start Sample.noFile)
    = (None, mkWorld Sample.noFile (mkStore fresh 0))
  /\ Load (json := Sample.codec) (start (Sample.holding 4 ""))
    = (None, mkWorld (Sample.holding 4 "") (mkStore fresh 4))
  /\ Load (json := Sample.codec) (start (Sample.holding 4 "[]"))
    = (None, mkWorld (Sample.holding 4 "[]") (mkStore fresh 4))
  /\ fst (Load (json := Sample.codec) (start (Sample.holding 4 "[")))
    = Some ErrUnmarshal.
Proof.
  intros fresh start.
  split; [| split; [| split]].
  - destruct (Load_fallbacks (json := Sample.codec) (start Sample.noFile))
      as (_ & Habsent & _).
    apply Habsent. reflexivity.
  - destruct (Load_fallbacks (json := Sample.codec) (start (Sample.holding 4 "")))
      as (_ & _ & Hempty & _).
    apply (Hempty 4). reflexivity.
  - destruct (Load_fallbacks (json := Sample.codec) (start (Sample.holding 4 "[]")))
      as (_ & _ & _ & Hlegacy & _).
    apply (Hlegacy 4 "[]" []); try reflexivity. discriminate.
  - destruct (Load_fallbacks (json := Sample.codec) (start (Sample.holding 4 "[")))
      as (_ & _ & _ & _ & Herr).
    destruct (proj2 (Herr 4 "[" eq_refl)) as [e He].
    + repeat split. discriminate.
    + reflexivity.
Defined.

(** C5 fails on the legacy path.  A file holding the bare list of one
    notification object without fields loads without error, and the record
    is left with the repeat count 0 and the empty interval: the early return
    of the legacy branch skips the migration that [Load_schema_backfilled]
    shows on the other path. *)
Theorem Load_legacy_list_not_backfilled :
  let w := mkWorld (Sample.holding 4 "[{}]") NewStore in
  let loaded := Load (json := Sample.codec) w in
  fst loaded = None
  /\ Settings (Data (store (snd loaded))) = defaultSettings
  /\ notifications (snd loaded) = [Notification.zero]
  /\ Notification.RepeatTimes Notification.zero = 0
  /\ Notification.RepeatInterval Notification.zero = "".
Proof.
  intros w loaded. subst loaded.
  destruct (Load_legacy_verbatim (json := Sample.codec) w 4 "[{}]"
              [Notification.zero]) as [Hok Hns]; try reflexivity; [discriminate |].
  repeat split; assumption.
Qed.

(** C6 fails for [GetNotification].  The file was rewritten (time 9) after
    the store last loaded it (time 5) and now holds the legacy list of one
    record, whose ID is the empty string.  [GetNotification] answers from
    the stale list and does not find it; [GetAllNotifications], [GetPending]
    and [GetSettings], which start with [CheckDiskChanges], reload: they
    return the record, its pointer, and the settings of the reloaded store
    (the defaults, without a token).  After a reload [GetNotification]
    finds the record too. *)
Theorem GetNotification_skips_disk_check :
  let w := mkWorld (Sample.holding 9 "[{}]")
             (mkStore (mkAppSchema (Sample.credentials 3 "30m") []) 5) in
  inSync w = false
  /\ GetNotification "" w = (inr ErrNotFound, w)
  /\ fst (GetAllNotifications (json := Sample.codec) w) = [Notification.zero]
  /\ fst (GetPending (json := Sample.codec) w) = [0%nat]
  /\ Settings.PushoverToken (fst (GetSettings (json := Sample.codec) w)) = ""
  /\ fst (GetNotification "" (snd (GetAllNotifications (json := Sample.codec) w)))
     = inl Notification.zero.
Proof.
  intros w. pose proof (GetNotification_reads_memory "" w) as [Hsame _].
  repeat split.
Qed.

(** ** The evaluation pass *)

Section PassFacts.
Context {json : JSON} {syntax : DurationSyntax} {delivery : Delivery}.

(** *** The loop over pointers is the sweep over the list *)

Lemma loop_sweep_prefix (cl : Client) (now : GoTime.Time)
    (ns pre : list Notification.t) (v : Vars) :
  loop cl now (pendingFrom (length pre) ns) (pre ++ ns) v
  = (pre ++ fst (sweep cl now ns v), snd (sweep cl now ns v)).
Proof.
  revert pre v. induction ns as [| n rest IH]; intros pre v; simpl.
  - reflexivity.
  - destruct (String.eqb (Notification.Status n) StatusDone).
    + specialize (IH (pre ++ [n]) v).
      rewrite length_app, Nat.add_1_r, <- app_assoc in IH. simpl in IH.
      rewrite IH. destruct (sweep cl now rest v) as [rest' v']. simpl.
      rewrite <- app_assoc. reflexivity.
    + simpl. rewrite list_lookup_middle by reflexivity.
      destruct (body cl now n v) as [n' v1].
      replace (<[length pre := n']> (pre ++ n :: rest)) with (pre ++ n' :: rest).
      2:{ rewrite <- (Nat.add_0_r (length pre)) at 1.
          rewrite insert_app_r. reflexivity. }
      specialize (IH (pre ++ [n']) v1).
      rewrite length_app, Nat.add_1_r, <- app_assoc in IH. simpl in IH.
      rewrite IH. destruct (sweep cl now rest v1) as [rest' v2]. simpl.
      rewrite <- app_assoc. reflexivity.
Qed.

Lemma loop_pendingFrom (cl : Client) (now : GoTime.Time)
    (ns : list Notification.t) (v : Vars) :
  loop cl now (pendingFrom 0 ns) ns v = sweep cl now ns v.
Proof.
  pose proof (loop_sweep_prefix cl now ns [] v) as E. simpl in E.
  rewrite E. destruct (sweep cl now ns v). reflexivity.
Qed.

(** The records of a swept list, position by position: a record marked
    Done is the one before; any other went through the body, entered with
    the variables some earlier part of the loop left. *)
Lemma sweep_lookup (cl : Client) (now : GoTime.Time)
    (ns : list Notification.t) (v : Vars) (i : nat) (n : Notification.t) :
  ns !! i = Some n ->
  exists v0,
    fst (sweep cl now ns v) !! i
    = Some (if String.eqb (Notification.Status n) StatusDone then n
            else fst (body cl now n v0)).
Proof.
  revert v i. induction ns as [| m rest IH]; intros v i Hi; [discriminate |].
  simpl. destruct i as [| i]; simpl in Hi.
  - injection Hi as ->.
    destruct (String.eqb (Notification.Status n) StatusDone).
    + exists v. destruct (sweep cl now rest v). reflexivity.
    + exists v. destruct (body cl now n v) as [n' v1].
      destruct (sweep cl now rest v1). reflexivity.
  - destruct (String.eqb (Notification.Status m) StatusDone).
    + destruct (IH v i Hi) as [v0 E]. exists v0.
      destruct (sweep cl now rest v). exact E.
    + destruct (body cl now m v) as [m' v1].
      destruct (IH v1 i Hi) as [v0 E]. exists v0.
      destruct (sweep cl now rest v1). exact E.
Qed.


(** *** A pass over a store in sync *)

(** A pass starts by bringing the store in sync: it is the pass over the
    store in sync, which is what the statements below are about. *)
Lemma checkAndProcess_syncs (wk : Worker) (now : GoTime.Time) (w : World)
    (p : Port) :
  checkAndProcess wk now w p = checkAndProcess wk now (CheckDiskChanges w) p.
Proof.
  unfold checkAndProcess, GetSettings.
  rewrite (CheckDiskChanges_inSync (CheckDiskChanges w) (CheckDiskChanges_syncs w)).
  reflexivity.
Qed.

Lemma checkAndProcess_idle (wk : Worker) (now : GoTime.Time) (w : World)
    (p : Port) :
  inSync w = true ->
  ~ configured (Settings (Data (store w))) ->
  checkAndProcess wk now w p = mkPass wk w p false GoTime.zero.
Proof.
  intros Hs Hc. unfold checkAndProcess, GetSettings.
  rewrite (CheckDiskChanges_inSync w Hs).
  destruct (String.eqb_spec (Settings.PushoverToken (Settings (Data (store w)))) "")
    as [E1 | N1]; [reflexivity |].
  destruct (String.eqb_spec (Settings.PushoverUser (Settings (Data (store w)))) "")
    as [E2 | N2]; [reflexivity |].
  exfalso. apply Hc. split; assumption.
Qed.

Lemma checkAndProcess_inSync (wk : Worker) (now : GoTime.Time) (w : World)
    (p : Port) :
  inSync w = true ->
  configured (Settings (Data (store w))) ->
  let s := sweep (clientOf (Settings (Data (store w)))) now (notifications w)
                 (mkVars p false GoTime.zero) in
  let r := checkAndProcess wk now w p in
  notifications (world r) = fst s
  /\ transport r = port (snd s)
  /\ nextRun r = earliestNext (snd s)
  /\ Settings (Data (store (world r))) = Settings (Data (store w))
  /\ inSync (world r) = true.
Proof.
  intros Hs [N1 N2] s r. subst r. unfold checkAndProcess, GetSettings, GetPending.
  rewrite (CheckDiskChanges_inSync w Hs).
  apply String.eqb_neq in N1, N2. rewrite N1, N2. simpl orb. cbv iota.
  rewrite (CheckDiskChanges_inSync w Hs).
  rewrite loop_pendingFrom. fold (clientOf (Settings (Data (store w)))).
  fold s. destruct s as [ns v]. simpl fst. simpl snd.
  destruct (saveNeeded v).
  - pose proof (Save_Data (with_Notifications ns w)) as HD.
    pose proof (Save_inSync (with_Notifications ns w) Hs) as HS.
    destruct (Save (with_Notifications ns w)) as [[e |] w']; simpl in *;
      unfold notifications; rewrite HD; repeat split; assumption.
  - simpl. repeat split. exact Hs.
Qed.

End PassFacts.

(** *** The body of the loop, case by case *)

Section BodyFacts.
Context {syntax : DurationSyntax} {delivery : Delivery}.

Lemma body_not_due (cl : Client) (now : GoTime.Time) (n : Notification.t)
    (v : Vars) :
  isDue now n = false ->
  body cl now n v
  = (n, mkVars (port v) (saveNeeded v)
               (track (nextSendTime n) (earliestNext v))).
Proof.
  unfold isDue, body. intros Hd. rewrite Hd. reflexivity.
Qed.

Lemma body_failed (cl : Client) (now : GoTime.Time) (n : Notification.t)
    (v : Vars) (p' : Port) :
  isDue now n = true ->
  Notification.SendsCount n < effectiveTimes n ->
  SendMessage (Token cl) (User cl) "Reminder" (Notification.Content n) (port v)
    = (false, p') ->
  body cl now n v
  = (Notification.with_LastPushTime now n,
     mkVars p' true (track (anchored n) (earliestNext v))).
Proof.
  unfold isDue, body. intros Hd Hlt Hsend. rewrite Hd.
  apply Z.ltb_lt in Hlt. rewrite Hlt, Hsend. simpl.
  apply Z.ltb_lt in Hlt.
  destruct (Z.geb_spec (Notification.SendsCount n) (effectiveTimes n)); [lia |].
  reflexivity.
Qed.

Lemma body_delivered (cl : Client) (now : GoTime.Time) (n : Notification.t)
    (v : Vars) (p' : Port) :
  isDue now n = true ->
  Notification.SendsCount n < effectiveTimes n ->
  SendMessage (Token cl) (User cl) "Reminder" (Notification.Content n) (port v)
    = (true, p') ->
  let n1 := Notification.with_LastPushTime now
              (Notification.with_SendsCount
                 (GoTime.incr (Notification.SendsCount n)) n) in
  body cl now n v
  = if Notification.SendsCount n1 >=? effectiveTimes n
    then (Notification.with_Status StatusDone n1,
          mkVars p' true (earliestNext v))
    else (n1, mkVars p' true (track (anchored n1) (earliestNext v))).
Proof.
  unfold isDue, body. intros Hd Hlt Hsend. rewrite Hd.
  apply Z.ltb_lt in Hlt. rewrite Hlt, Hsend. reflexivity.
Qed.

Lemma body_exhausted (cl : Client) (now : GoTime.Time) (n : Notification.t)
    (v : Vars) :
  isDue now n = true ->
  effectiveTimes n <= Notification.SendsCount n ->
  body cl now n v
  = (Notification.with_Status StatusDone n,
     mkVars (port v) true (earliestNext v)).
Proof.
  unfold isDue, body. intros Hd Hge. rewrite Hd.
  destruct (Z.ltb_spec (Notification.SendsCount n) (effectiveTimes n)); [lia |].
  destruct (Z.geb_spec (Notification.SendsCount n) (effectiveTimes n)); [| lia].
  reflexivity.
Qed.



(** A record that is due with attempts left is handed to the transport,
    and the time of the pass is recorded whatever the outcome. *)
Lemma body_attempt (cl : Client) (now : GoTime.Time) (n : Notification.t)
    (v : Vars) :
  isDue now n = true ->
  Notification.SendsCount n < effectiveTimes n ->
  port (snd (body cl now n v))
  = snd (SendMessage (Token cl) (User cl) "Reminder" (Notification.Content n)
                     (port v))
  /\ Notification.LastPushTime (fst (body cl now n v)) = now.
Proof.
  intros Hd Hlt.
  destruct (SendMessage (Token cl) (User cl) "Reminder"
              (Notification.Content n) (port v)) as [ok p'] eqn:Hsend.
  destruct ok.
  - rewrite (body_delivered cl now n v p' Hd Hlt Hsend). cbv zeta.
    match goal with |- context [?a >=? ?b] => destruct (a >=? b) end;
      split; reflexivity.
  - rewrite (body_failed cl now n v p' Hd Hlt Hsend). split; reflexivity.
Qed.

(** C1.  The attempt numbered [k = SendsCount] of a notification scheduled
    at [T] with effective interval [I] is due from the instant
    [T truncated to the minute + I * k] on and not before.  The product is
    the one of [int64] durations: it is the exact [I * k] whenever that fits
    in 64 bits.  The instant is a function of the scheduled time, the
    interval and the count alone: neither [LastPushTime] nor any other trace
    of when earlier deliveries happened enters it.  The loop acts on it:
    before the instant it leaves the record and the transport alone, and
    from the instant on it makes the attempt (if one is left) at once, however
    late the pass is. *)
Theorem anchored_schedule (n : Notification.t) :
  let T := GoTime.Truncate (Notification.ScheduledTime n) GoTime.Minute in
  let I := effectiveInterval n in
  let k := Notification.SendsCount n in
  (nextSendTime n = GoTime.Add T (GoTime.mul I k)
   /\ forall now, isDue now n = true <-> GoTime.Add T (GoTime.mul I k) <= now)
  /\ (GoTime.inInt64 (I * k) ->
      nextSendTime n = T + I * k
      /\ forall now, isDue now n = true <-> T + I * k <= now)
  /\ T = Notification.ScheduledTime n
         - Notification.ScheduledTime n mod GoTime.Minute
  /\ (forall n',
        Notification.ScheduledTime n' = Notification.ScheduledTime n ->
        Notification.RepeatInterval n' = Notification.RepeatInterval n ->
        Notification.SendsCount n' = Notification.SendsCount n ->
        nextSendTime n' = nextSendTime n)
  /\ (forall cl now v,
        now < GoTime.Add T (GoTime.mul I k) ->
        fst (body cl now n v) = n /\ port (snd (body cl now n v)) = port v)
  /\ (forall cl now v,
        GoTime.Add T (GoTime.mul I k) <= now ->
        Notification.SendsCount n < effectiveTimes n ->
        port (snd (body cl now n v))
        = snd (SendMessage (Token cl) (User cl) "Reminder"
                           (Notification.Content n) (port v))
        /\ Notification.LastPushTime (fst (body cl now n v)) = now).
Proof.
  intros T I k.
  assert (Hnext : nextSendTime n = GoTime.Add T (GoTime.mul I k)).
  { rewrite nextSendTime_anchored. reflexivity. }
  assert (Hdue : forall now,
            isDue now n = true <-> GoTime.Add T (GoTime.mul I k) <= now).
  { intros now. rewrite isDue_iff, Hnext. reflexivity. }
  split; [split; [exact Hnext | exact Hdue] |].
  split.
  { intros Hfit. rewrite (mul_exact I k Hfit) in Hnext. unfold GoTime.Add in Hnext.
    split; [exact Hnext |].
    intros now. rewrite isDue_iff, Hnext. reflexivity. }
  split; [apply Truncate_Minute |].
  split.
  { intros n' HT HI Hk.
    rewrite !nextSendTime_anchored. unfold anchored, effectiveInterval.
    rewrite HT, HI, Hk. reflexivity. }
  split.
  - intros cl now v Hearly.
    assert (Hd : isDue now n = false).
    { destruct (isDue now n) eqn:E; [| reflexivity].
      apply Hdue in E. lia. }
    rewrite (body_not_due cl now n v Hd). split; reflexivity.
  - intros cl now v Hlate Hlt. apply body_attempt; [| exact Hlt].
    apply Hdue. exact Hlate.
Qed.

End BodyFacts.

(** The third attempt ([k = 2]) of a reminder scheduled 12 seconds past
    minute 1000 with a 30 minute interval: due from minute 1060 on. *)
Lemma anchored_schedule_witness :
  let n := Notification.with_LastPushTime (Sample.at_ 1047 3)
             (Sample.reminder "a" (Sample.at_ 1000 12) 2 3 "30m") in
  nextSendTime (syntax := Sample.durations) n = Sample.at_ 1060 0
  /\ isDue (syntax := Sample.durations) (Sample.at_ 1059 59) n = false
  /\ isDue (syntax := Sample.durations) (Sample.at_ 1060 0) n = true.
Proof.
  intros n.
  destruct (anchored_schedule (syntax := Sample.durations)
              (delivery := Sample.up) n) as (_ & Hexact & _).
  destruct Hexact as [H1 H2].
  - vm_compute. split; discriminate.
  - split; [rewrite H1; reflexivity |].
    split; [| apply H2; vm_compute; discriminate].
    destruct (isDue (syntax := Sample.durations) (Sample.at_ 1059 59) n) eqn:E;
      [| reflexivity].
    apply H2 in E. vm_compute in E. exfalso. apply E. reflexivity.
Defined.

(** ** Candidates for the next wake time *)

Section Candidates.
Context {syntax : DurationSyntax} {delivery : Delivery}.

Lemma track_le (t e : GoTime.Time) : track t e <= t.
Proof.
  unfold track, GoTime.IsZero, GoTime.Before.
  destruct (Z.eqb_spec e 0); simpl; [lia |].
  destruct (Z.ltb_spec t e); lia.
Qed.

Lemma track_pos (t e : GoTime.Time) :
  0 < t -> 0 <= e -> 0 < track t e /\ (0 < e -> track t e <= e).
Proof.
  unfold track, GoTime.IsZero, GoTime.Before. intros Ht He.
  destruct (Z.eqb_spec e 0); simpl; [lia |].
  destruct (Z.ltb_spec t e); lia.
Qed.

(** The candidate the body leaves is the one it found, or the slot of the
    record tracked against it, before or after the count moved. *)
Lemma body_earliest (cl : Client) (now : GoTime.Time) (n : Notification.t)
    (v : Vars) :
  let e := earliestNext v in
  let e' := earliestNext (snd (body cl now n v)) in
  e' = e
  \/ e' = track (anchored n) e
  \/ e' = track (anchored (Notification.with_SendsCount
                            (GoTime.incr (Notification.SendsCount n)) n)) e.
Proof.
  intros e e'. subst e e'. destruct (isDue now n) eqn:Hd.
  - destruct (Z.lt_ge_cases (Notification.SendsCount n) (effectiveTimes n)) as [Hlt | Hge].
    + destruct (SendMessage (Token cl) (User cl) "Reminder"
                  (Notification.Content n) (port v)) as [ok p'] eqn:Hsend.
      destruct ok.
      * rewrite (body_delivered cl now n v p' Hd Hlt Hsend). cbv zeta.
        match goal with |- context [?a >=? ?b] => destruct (a >=? b) end;
          simpl; [left | right; right]; reflexivity.
      * rewrite (body_failed cl now n v p' Hd Hlt Hsend). right. left. reflexivity.
    + rewrite (body_exhausted cl now n v Hd Hge). left. reflexivity.
  - rewrite (body_not_due cl now n v Hd). simpl. right. left.
    rewrite nextSendTime_anchored. reflexivity.
Qed.

Lemma body_earliest_bounds (cl : Client) (now : GoTime.Time)
    (n : Notification.t) (v : Vars) :
  afterZero n -> 0 <= earliestNext v ->
  0 <= earliestNext (snd (body cl now n v))
  /\ (0 < earliestNext v ->
      0 < earliestNext (snd (body cl now n v)) <= earliestNext v).
Proof.
  intros [H1 H2] He.
  destruct (body_earliest cl now n v) as [E | [E | E]]; cbv zeta in E; rewrite E.
  - lia.
  - pose proof (track_pos _ _ H1 He). lia.
  - pose proof (track_pos _ _ H2 He). lia.
Qed.

Lemma sweep_earliest_bounds (cl : Client) (now : GoTime.Time)
    (ns : list Notification.t) (v : Vars) :
  Forall afterZero ns -> 0 <= earliestNext v ->
  0 <= earliestNext (snd (sweep cl now ns v))
  /\ (0 < earliestNext v ->
      0 < earliestNext (snd (sweep cl now ns v)) <= earliestNext v).
Proof.
  revert v. induction ns as [| m rest IH]; intros v Hall He; simpl; [lia |].
  inversion Hall as [| ? ? Hm Hrest]; subst.
  destruct (String.eqb (Notification.Status m) StatusDone).
  - specialize (IH v Hrest He). destruct (sweep cl now rest v). exact IH.
  - pose proof (body_earliest_bounds cl now m v Hm He) as [Hb1 Hb2].
    destruct (body cl now m v) as [m' v1]. simpl in Hb1, Hb2.
    specialize (IH v1 Hrest Hb1). destruct (sweep cl now rest v1) as [rest' v2].
    simpl in *. lia.
Qed.

(** A pending record whose slot the body tracks bounds the candidate the
    sweep ends with. *)
Lemma sweep_candidate (cl : Client) (now : GoTime.Time)
    (ns : list Notification.t) (v : Vars) (i : nat) (n : Notification.t) :
  ns !! i = Some n ->
  Notification.Status n <> StatusDone ->
  (forall v0, earliestNext (snd (body cl now n v0))
              = track (anchored n) (earliestNext v0)) ->
  Forall afterZero ns -> 0 <= earliestNext v ->
  0 < earliestNext (snd (sweep cl now ns v)) <= nextSendTime n.
Proof.
  intros Hi Hst Htracks. revert v i Hi.
  induction ns as [| m rest IH]; intros v i Hi Hall He; [discriminate |].
  inversion Hall as [| ? ? Hm Hrest]; subst. simpl.
  destruct i as [| i]; simpl in Hi.
  - injection Hi as ->. apply String.eqb_neq in Hst. rewrite Hst.
    specialize (Htracks v).
    destruct (body cl now n v) as [n' v1]. simpl in Htracks.
    destruct Hm as [Hpos _].
    pose proof (track_pos _ _ Hpos He) as [Ht _].
    pose proof (track_le (anchored n) (earliestNext v)) as Hle.
    rewrite <- Htracks in Ht, Hle.
    pose proof (sweep_earliest_bounds cl now rest v1 Hrest ltac:(lia))
      as [_ Hsw].
    specialize (Hsw Ht).
    destruct (sweep cl now rest v1) as [rest' v2]. simpl in *.
    rewrite nextSendTime_anchored. lia.
  - destruct (String.eqb (Notification.Status m) StatusDone).
    + specialize (IH v i Hi Hrest He). destruct (sweep cl now rest v). exact IH.
    + pose proof (body_earliest_bounds cl now m v Hm He) as [Hb1 _].
      destruct (body cl now m v) as [m' v1]. simpl in Hb1.
      specialize (IH v1 i Hi Hrest Hb1). destruct (sweep cl now rest v1).
      exact IH.
Qed.

End Candidates.

(** ** A failed delivery *)

Section FailedDelivery.
Context {json : JSON} {syntax : DurationSyntax} {delivery : Delivery}.

Lemma pass_failed_delivery (wk : Worker) (now : GoTime.Time) (w : World)
    (p : Port) (i : nat) (n : Notification.t) :
  inSync w = true ->
  configured (Settings (Data (store w))) ->
  notifications w !! i = Some n ->
  Notification.Status n <> StatusDone ->
  isDue now n = true ->
  Notification.SendsCount n < effectiveTimes n ->
  refuses (Settings (Data (store w))) (Notification.Content n) ->
  let r := checkAndProcess wk now w p in
  notifications (world r) !! i = Some (Notification.with_LastPushTime now n)
  /\ inSync (world r) = true
  /\ Settings (Data (store (world r))) = Settings (Data (store w)).
Proof.
  intros Hs Hc Hi Hst Hd Hlt Hfail r.
  destruct (checkAndProcess_inSync wk now w p Hs Hc) as (Hns & _ & _ & Hset & Hs').
  fold r in Hns, Hset, Hs'. split; [| split; assumption].
  rewrite Hns.
  destruct (sweep_lookup (clientOf (Settings (Data (store w)))) now
              (notifications w) (mkVars p false GoTime.zero) i n Hi) as [v0 E].
  rewrite E. apply String.eqb_neq in Hst. rewrite Hst.
  specialize (Hfail (port v0)).
  destruct (SendMessage (Settings.PushoverToken (Settings (Data (store w))))
              (Settings.PushoverUser (Settings (Data (store w)))) "Reminder"
              (Notification.Content n) (port v0)) as [ok p'] eqn:Hsend.
  simpl in Hfail. subst ok.
  rewrite (body_failed (clientOf (Settings (Data (store w)))) now n v0 p' Hd Hlt Hsend).
  reflexivity.
Qed.

(** C2.  In a pass over a configured store in sync with its file, let the
    transport fail for a pending notification that is due and has attempts
    left.  The pass leaves its count and its status as they were and sets
    [LastPushTime] to the time of the pass (nothing else of the record
    changes).  At any later time the record is due again at the very same
    instant, with the same attempt still to make, and a following pass makes
    that attempt again, leaving once more only a new [LastPushTime]. *)
Theorem failed_delivery_keeps_slot (wk : Worker) (now : GoTime.Time)
    (w : World) (p : Port) (i : nat) (n : Notification.t) :
  inSync w = true ->
  configured (Settings (Data (store w))) ->
  notifications w !! i = Some n ->
  Notification.Status n <> StatusDone ->
  isDue now n = true ->
  Notification.SendsCount n < effectiveTimes n ->
  refuses (Settings (Data (store w))) (Notification.Content n) ->
  let r := checkAndProcess wk now w p in
  exists n',
    notifications (world r) !! i = Some n'
    /\ n' = Notification.with_LastPushTime now n
    /\ Notification.SendsCount n' = Notification.SendsCount n
    /\ Notification.Status n' = Notification.Status n
    /\ Notification.LastPushTime n' = now
    /\ forall now', now <= now' ->
         nextSendTime n' = nextSendTime n
         /\ isDue now' n' = true
         /\ Notification.SendsCount n' < effectiveTimes n'
         /\ let r' := checkAndProcess (self r) now' (world r) (transport r) in
            notifications (world r') !! i
            = Some (Notification.with_LastPushTime now' n).
Proof.
  intros Hs Hc Hi Hst Hd Hlt Hfail r.
  destruct (pass_failed_delivery wk now w p i n Hs Hc Hi Hst Hd Hlt Hfail)
    as (Hi' & Hs' & Hset).
  fold r in Hi', Hs', Hset.
  exists (Notification.with_LastPushTime now n).
  split; [exact Hi' |]. do 4 (split; [reflexivity |]).
  intros now' Hlater.
  assert (Hd' : isDue now' (Notification.with_LastPushTime now n) = true).
  { apply isDue_iff. apply isDue_iff in Hd.
    change (nextSendTime (Notification.with_LastPushTime now n))
      with (nextSendTime n). lia. }
  split; [reflexivity |]. split; [exact Hd' |]. split; [exact Hlt |].
  destruct (pass_failed_delivery (self r) now' (world r) (transport r) i
              (Notification.with_LastPushTime now n)) as (Hi'' & _).
  - exact Hs'.
  - rewrite Hset. exact Hc.
  - exact Hi'.
  - exact Hst.
  - exact Hd'.
  - exact Hlt.
  - rewrite Hset. exact Hfail.
  - exact Hi''.
Qed.

End FailedDelivery.

(** A reminder scheduled at minute 1000, evaluated seven seconds past
    minute 1005 while the transport is down, and again a minute later. *)
Lemma failed_delivery_keeps_slot_witness :
  let n := Sample.reminder "a" (Sample.at_ 1000 0) 0 3 "30m" in
  let w := Sample.inMemory (Sample.credentials 3 "30m") [n] in
  let r := checkAndProcess (json := Sample.codec) (syntax := Sample.durations)
             (delivery := Sample.down) NewWorker (Sample.at_ 1005 7) w [] in
  exists n',
    notifications (world r) !! 0%nat = Some n'
    /\ Notification.SendsCount n' = 0
    /\ Notification.Status n' = StatusPending
    /\ Notification.LastPushTime n' = Sample.at_ 1005 7
    /\ nextSendTime (syntax := Sample.durations) n' = Sample.at_ 1000 0
    /\ isDue (syntax := Sample.durations) (Sample.at_ 1006 7) n' = true.
Proof.
  intros n w r.
  destruct (failed_delivery_keeps_slot (json := Sample.codec)
              (syntax := Sample.durations) (delivery := Sample.down)
              NewWorker (Sample.at_ 1005 7) w [] 0%nat n)
    as (n' & Hi & -> & Hc & Hst & Hl & Hnext); try reflexivity.
  - split; discriminate.
  - discriminate.
  - intros q. reflexivity.
  - exists (Notification.with_LastPushTime (Sample.at_ 1005 7) n).
    split; [exact Hi |].
    destruct (Hnext (Sample.at_ 1006 7)) as (Hsame & Hdue & _); [vm_compute; discriminate |].
    repeat split; assumption.
Defined.

(** ** Records whose budget is spent *)

Section Spent.
Context {json : JSON} {syntax : DurationSyntax} {delivery : Delivery}.





End Spent.



(** ** The effective repeat policy *)

Section EffectivePolicy.
Context {json : JSON} {syntax : DurationSyntax} {delivery : Delivery}.


End EffectivePolicy.



(** ** The timer after a failed delivery *)

Section RetryStorm.
Context {json : JSON} {syntax : DurationSyntax} {delivery : Delivery}.

Lemma setTimer_past (nextRun now : GoTime.Time) :
  0 < nextRun -> nextRun <= now -> setTimer nextRun now = Armed 0.
Proof.
  intros Hpos Hpast. unfold setTimer, GoTime.IsZero.
  destruct (Z.eqb_spec nextRun 0); [lia |].
  unfold GoTime.Sub, GoTime.minDuration, GoTime.maxDuration.
  match goal with |- context [?d <? 0] => destruct (Z.ltb_spec d 0) as [Hd | Hd] end;
    [reflexivity | f_equal; lia].
Qed.

(** C3 fails.  In a pass over a configured store in sync with its file, let
    the transport fail for a pending notification that is due and has
    attempts left (all slots lying after the zero time).  The pass sets
    [LastPushTime] and returns as the next wake time an instant that is not
    later than the slot it has just tried, hence already past: [Start] sets
    the timer to the duration zero, and the pass of the next iteration,
    whenever it runs, makes the same attempt again. *)
Theorem failed_slot_rearms_timer_at_once (wk : Worker) (now now' : GoTime.Time)
    (w : World) (p : Port) (i : nat) (n : Notification.t) :
  inSync w = true ->
  configured (Settings (Data (store w))) ->
  notifications w !! i = Some n ->
  Notification.Status n <> StatusDone ->
  isDue now n = true ->
  Notification.SendsCount n < effectiveTimes n ->
  refuses (Settings (Data (store w))) (Notification.Content n) ->
  Forall afterZero (notifications w) ->
  now <= now' ->
  let it := iteration wk now now' w p in
  let r := fst it in
  0 < nextRun r <= nextSendTime n
  /\ nextRun r <= now
  /\ snd it = Armed 0
  /\ notifications (world r) !! i = Some (Notification.with_LastPushTime now n)
  /\ isDue now' (Notification.with_LastPushTime now n) = true
  /\ notifications
       (world (checkAndProcess (self r) now' (world r) (transport r))) !! i
     = Some (Notification.with_LastPushTime now' n).
Proof.
  intros Hs Hc Hi Hst Hd Hlt Hfail Hall Hlater it r. subst it r.
  unfold iteration. simpl fst. simpl snd.
  destruct (checkAndProcess_inSync wk now w p Hs Hc) as (_ & _ & Hnext & _).
  destruct (pass_failed_delivery wk now w p i n Hs Hc Hi Hst Hd Hlt Hfail)
    as (Hi' & Hs' & Hset).
  cbv zeta in Hnext, Hi', Hs', Hset.
  assert (Htracks : forall v0,
            earliestNext (snd (body (clientOf (Settings (Data (store w))))
                                    now n v0))
            = track (anchored n) (earliestNext v0)).
  { intros v0. specialize (Hfail (port v0)).
    destruct (SendMessage (Settings.PushoverToken (Settings (Data (store w))))
                (Settings.PushoverUser (Settings (Data (store w)))) "Reminder"
                (Notification.Content n) (port v0)) as [ok p'] eqn:Hsend.
    simpl in Hfail. subst ok.
    rewrite (body_failed (clientOf (Settings (Data (store w)))) now n v0 p'
               Hd Hlt Hsend). reflexivity. }
  pose proof (sweep_candidate (clientOf (Settings (Data (store w)))) now
                (notifications w) (mkVars p false GoTime.zero) i n
                Hi Hst Htracks Hall) as Hb.
  simpl in Hb. specialize (Hb ltac:(reflexivity)). rewrite <- Hnext in Hb.
  pose proof (proj1 (isDue_iff now n) Hd) as Hdue.
  assert (Hd' : isDue now' (Notification.with_LastPushTime now n) = true).
  { apply isDue_iff.
    change (nextSendTime (Notification.with_LastPushTime now n))
      with (nextSendTime n). lia. }
  split; [exact Hb |]. split; [lia |].
  split; [apply setTimer_past; lia |].
  split; [exact Hi' |]. split; [exact Hd' |].
  destruct (pass_failed_delivery (self (checkAndProcess wk now w p)) now'
              (world (checkAndProcess wk now w p))
              (transport (checkAndProcess wk now w p)) i
              (Notification.with_LastPushTime now n)) as (Hi'' & _).
  - exact Hs'.
  - rewrite Hset. exact Hc.
  - exact Hi'.
  - exact Hst.
  - exact Hd'.
  - exact Hlt.
  - rewrite Hset. exact Hfail.
  - exact Hi''.
Qed.

End RetryStorm.

(** A reminder scheduled at minute 1000 and first evaluated seven seconds
    past minute 1005, the transport being down: three iterations of the loop
    of [Start], one second apart, each with a delivery attempt for the same
    slot and each setting the timer to zero. *)
Lemma failed_slot_rearms_timer_at_once_witness :
  let n := Sample.reminder "a" (Sample.at_ 1000 0) 0 3 "30m" in
  let w := Sample.inMemory (Sample.credentials 3 "30m") [n] in
  let run := iteration (json := Sample.codec) (syntax := Sample.durations)
               (delivery := Sample.down) in
  let i1 := run NewWorker (Sample.at_ 1005 7) (Sample.at_ 1005 8) w [] in
  let i2 := run (self (fst i1)) (Sample.at_ 1005 8) (Sample.at_ 1005 9)
                (world (fst i1)) (transport (fst i1)) in
  let i3 := run (self (fst i2)) (Sample.at_ 1005 9) (Sample.at_ 1005 10)
                (world (fst i2)) (transport (fst i2)) in
  (snd i1 = Armed 0 /\ snd i2 = Armed 0 /\ snd i3 = Armed 0)
  /\ nextRun (fst i3) = Sample.at_ 1000 0
  /\ transport (fst i3)
     = ["water the plants"; "water the plants"; "water the plants"]
  /\ notifications (world (fst i3))
     = [Notification.with_LastPushTime (Sample.at_ 1005 9) n].
Proof.
  intros n w run i1 i2 i3.
  destruct (failed_slot_rearms_timer_at_once (json := Sample.codec)
              (syntax := Sample.durations) (delivery := Sample.down)
              NewWorker (Sample.at_ 1005 7) (Sample.at_ 1005 8) w [] 0%nat n)
    as (_ & _ & Htimer & _); try reflexivity.
  - split; discriminate.
  - discriminate.
  - intros q. reflexivity.
  - constructor; [split; reflexivity | constructor].
  - vm_compute. discriminate.
  - split; [split; [exact Htimer | split; reflexivity] |].
    repeat split.
Defined.

(** ** The wake signal *)

Lemma Refresh_full_slot (wk : Worker) :
  cap (updateChan wk) = 1%nat -> (len (updateChan wk) <= 1)%nat ->
  Refresh wk = Returns (mkWorker (client wk) (mkChan 1 1) (onUpdate wk)).
Proof.
  destruct wk as [cl [c l] hook]. simpl. intros -> Hl.
  unfold Refresh, trySend. simpl.
  destruct l as [| [| l]]; simpl; [reflexivity | reflexivity | lia].
Qed.

Lemma refreshes_S (n : nat) (wk : Worker) :
  refreshes (S n) wk
  = match Refresh wk with
    | Returns wk' => refreshes n wk'
    | Blocks => Blocks
    end.
Proof. reflexivity. Qed.

Lemma refreshes_once (n : nat) (wk : Worker) :
  cap (updateChan wk) = 1%nat -> (len (updateChan wk) <= 1)%nat ->
  refreshes (S n) wk = Refresh wk.
Proof.
  revert wk. induction n as [| n IH]; intros wk Hc Hl.
  - rewrite refreshes_S. destruct (Refresh wk); reflexivity.
  - rewrite refreshes_S, (Refresh_full_slot wk Hc Hl).
    rewrite IH by (simpl; lia). reflexivity.
Qed.

(** C9.  On the one-slot channel a worker is made with, [Refresh] returns
    to its caller whether the slot is free or taken (where a bare send on
    the taken slot would block), and any number [n >= 1] of calls in a row
    has the effect of one: a single signal is pending.  The [select] of the
    loop can then wake on the signal exactly once: taking it empties the
    slot, and on the empty slot no wake on the signal is possible. *)
Theorem Refresh_coalesces (wk : Worker) (n : nat) :
  cap (updateChan wk) = 1%nat ->
  (len (updateChan wk) <= 1)%nat ->
  (0 < n)%nat ->
  exists wk',
    refreshes n wk = Returns wk'
    /\ refreshes n wk = Refresh wk
    /\ updateChan wk' = mkChan 1 1
    /\ (exists wk'', Refresh wk' = Returns wk'' /\ updateChan wk'' = mkChan 1 1)
    /\ send (updateChan wk') = Blocks
    /\ (forall done fired c',
          wait done fired (updateChan wk') Signal c' <-> c' = mkChan 1 0)
    /\ (forall done fired c'', ~ wait done fired (mkChan 1 0) Signal c'').
Proof.
  intros Hc Hl Hn. destruct n as [| n]; [lia |].
  exists (mkWorker (client wk) (mkChan 1 1) (onUpdate wk)).
  rewrite (refreshes_once n wk Hc Hl), (Refresh_full_slot wk Hc Hl).
  split; [reflexivity |]. split; [reflexivity |]. split; [reflexivity |].
  split; [eexists; split; reflexivity |]. split; [reflexivity |]. split.
  - intros done fired c'. simpl. split.
    + intros Hw. inversion Hw as [| c0 Hrecv |]; subst.
      simpl in Hrecv. injection Hrecv as <-. reflexivity.
    + intros ->. apply wait_signal. reflexivity.
  - intros done fired c'' Hw. inversion Hw as [| c0 Hrecv |]; subst.
    discriminate.
Qed.

(** Five calls of [Refresh] on a new worker. *)
Lemma Refresh_coalesces_witness :
  exists wk',
    refreshes 5 NewWorker = Returns wk'
    /\ updateChan wk' = mkChan 1 1
    /\ wait false false (updateChan wk') Signal (mkChan 1 0).
Proof.
  destruct (Refresh_coalesces NewWorker 5)
    as (wk' & Hret & _ & Hchan & _ & _ & Hwake & _).
  - reflexivity.
  - simpl. lia.
  - lia.
  - exists wk'. split; [exact Hret |]. split; [exact Hchan |].
    apply Hwake. reflexivity.
Defined.

(** ** The scenarios of the design document, run on the model *)

(** A reminder scheduled five minutes ago, 3 times every 30 minutes, the
    transport being up: one pass delivers it once and returns the slot 30
    minutes after the scheduled time. *)
Example scenario_first_delivery :
  let n := Sample.reminder "a" (Sample.at_ 1000 0) 0 3 "30m" in
  let now := Sample.at_ 1005 0 in
  let r := checkAndProcess (json := Sample.codec) (syntax := Sample.durations)
             (delivery := Sample.up) NewWorker now
             (Sample.inMemory (Sample.credentials 3 "30m") [n]) [] in
  notifications (world r)
  = [Notification.with_LastPushTime now (Notification.with_SendsCount 1 n)]
  /\ nextRun r = Sample.at_ 1030 0
  /\ setTimer (nextRun r) now = Armed (25 * GoTime.Minute).
Proof. repeat split. Qed.

(** Three passes at the three slots: the record ends Done with count 3, the
    pass returns no next time and the timer is stopped. *)
Example scenario_three_deliveries :
  let n := Sample.reminder "a" (Sample.at_ 1000 0) 0 3 "30m" in
  let pass := fun now (r : Pass (delivery := Sample.up)) =>
    checkAndProcess (json := Sample.codec) (syntax := Sample.durations)
      (delivery := Sample.up) (self r) now (world r) (transport r) in
  let r0 := mkPass (delivery := Sample.up) NewWorker
              (Sample.inMemory (Sample.credentials 3 "30m") [n]) [] false
              GoTime.zero in
  let r3 := pass (Sample.at_ 1060 0)
              (pass (Sample.at_ 1030 0) (pass (Sample.at_ 1000 0) r0)) in
  notifications (world r3)
  = [Notification.with_Status StatusDone
       (Notification.with_LastPushTime (Sample.at_ 1060 0)
          (Notification.with_SendsCount 3 n))]
  /\ List.length (transport r3) = 3%nat
  /\ nextRun r3 = GoTime.zero
  /\ setTimer (nextRun r3) (Sample.at_ 1060 0) = Stopped.
Proof. repeat split. Qed.

(** No notification, or no credentials: nothing to wait for. *)
Example scenario_idle :
  let n := Sample.reminder "a" (Sample.at_ 1000 0) 0 3 "30m" in
  let pass := fun w : World =>
    checkAndProcess (json := Sample.codec) (syntax := Sample.durations)
      (delivery := Sample.up) NewWorker (Sample.at_ 1005 0) w [] in
  nextRun (pass (Sample.inMemory (Sample.credentials 3 "30m") []))
  = GoTime.zero
  /\ pass (Sample.inMemory defaultSettings [n])
     = mkPass (delivery := Sample.up) NewWorker
              (Sample.inMemory defaultSettings [n]) [] false GoTime.zero.
Proof. repeat split. Qed.


(** * Further properties of the store *)

Import Derived.

Section StoreMore.
Context {json : JSON}.

Lemma Save_failed (w : World) (e : error) :
  fst (Save w) = Some e -> snd (Save w) = w.
Proof.
  unfold Save. destruct (MarshalIndent _) as [data |]; [| reflexivity].
  destruct (os_WriteFile _ _) as [d' |]; [| reflexivity].
  destruct (os_Stat d'); discriminate.
Qed.


Lemma Save_succeeds (w : World) (data : string) :
  MarshalIndent (Data (store w)) = Some data ->
  writable (disk w) = true ->
  Save w
  = (None,
     mkWorld (mkDisk (Regular (clock (disk w)) data) true (clock (disk w)))
             (mkStore (Data (store w)) (clock (disk w)))).
Proof.
  intros Hm Hw. unfold Save. rewrite Hm. unfold os_WriteFile. rewrite Hw.
  reflexivity.
Qed.

(** X1.  A save that succeeds replaces the file by the encoding of the data
    in memory and records the file's new modification time, so that the
    store is in sync afterwards whatever the file held before: a change made
    to the file from outside that the store had not yet loaded is
    overwritten and is never loaded. *)
Theorem Save_overwrites_unseen_edit (w : World) (data : string) :
  MarshalIndent (Data (store w)) = Some data ->
  writable (disk w) = true ->
  let w' := snd (Save w) in
  fst (Save w) = None
  /\ file (disk w') = Regular (clock (disk w)) data
  /\ Data (store w') = Data (store w)
  /\ lastLoadedTime (store w') = clock (disk w)
  /\ inSync w' = true
  /\ CheckDiskChanges w' = w'
  /\ fst (GetAllNotifications w') = notifications w.
Proof.
  intros Hm Hw w'. subst w'. rewrite (Save_succeeds w data Hm Hw). simpl.
  assert (Hs : inSync
                 (mkWorld (mkDisk (Regular (clock (disk w)) data) true
                                  (clock (disk w)))
                          (mkStore (Data (store w)) (clock (disk w)))) = true).
  { unfold inSync, os_Stat, GoTime.After. simpl. rewrite Z.ltb_irrefl.
    reflexivity. }
  repeat split; try exact Hs.
  - apply CheckDiskChanges_inSync. exact Hs.
  - unfold GetAllNotifications. rewrite (CheckDiskChanges_inSync _ Hs).
    reflexivity.
Qed.


(** *** Looking records up by ID *)

Lemma GetNotification_firstWithID (id : string) (w : World) :
  fst (GetNotification id w)
  = match firstWithID id (notifications w) with
    | Some n => inl n
    | None => inr ErrNotFound
    end.
Proof.
  unfold GetNotification, firstWithID.
  generalize (notifications w) as ns. intros ns.
  assert (H : forall ns,
            match indexOfID id ns with
            | Some i => ns !! i
            | None => None
            end = List.find (fun n => String.eqb (Notification.ID n) id) ns).
  { clear. induction ns as [| m rest IH]; simpl; [reflexivity |].
    destruct (String.eqb (Notification.ID m) id); [reflexivity |].
    rewrite <- IH. destruct (indexOfID id rest); reflexivity. }
  specialize (H ns). destruct (indexOfID id ns) as [i |].
  - rewrite <- H. destruct (ns !! i); reflexivity.
  - rewrite <- H. reflexivity.
Qed.

Lemma firstWithID_app (id : string) (l1 l2 : list Notification.t) :
  firstWithID id (l1 ++ l2)
  = match firstWithID id l1 with
    | Some n => Some n
    | None => firstWithID id l2
    end.
Proof.
  unfold firstWithID. induction l1 as [| m rest IH]; simpl; [reflexivity |].
  destruct (String.eqb (Notification.ID m) id); [reflexivity | exact IH].
Qed.

Lemma firstWithID_None (id : string) (ns : list Notification.t) :
  firstWithID id ns = None <-> Forall (fun n => Notification.ID n <> id) ns.
Proof.
  unfold firstWithID. induction ns as [| m rest IH]; simpl.
  - split; [constructor | reflexivity].
  - destruct (String.eqb_spec (Notification.ID m) id) as [E | NE].
    + split; [discriminate |]. intros HF. inversion HF; subst. contradiction.
    + rewrite IH. split; [intros HF; constructor; assumption |].
      intros HF. inversion HF; assumption.
Qed.

Lemma indexOfID_split (id : string) (pre post : list Notification.t)
    (old : Notification.t) :
  Forall (fun n => Notification.ID n <> id) pre ->
  Notification.ID old = id ->
  indexOfID id (pre ++ old :: post) = Some (length pre).
Proof.
  intros Hpre Hold. induction pre as [| m rest IH]; simpl.
  - apply String.eqb_eq in Hold. rewrite Hold. reflexivity.
  - inversion Hpre as [| ? ? Hm Hrest]; subst.
    apply String.eqb_neq in Hm. rewrite Hm, (IH Hrest). reflexivity.
Qed.

(** X3.  A record added under an ID no record of the store carries is
    the one [GetNotification] returns for that ID afterwards, whether or not
    the save succeeded; and every ID that could be looked up before still
    yields the same record: a record added under an ID already in use is
    appended but is not reachable by its ID. *)
Theorem AddNotification_then_lookup (w : World) (n : Notification.t) :
  let w' := snd (AddNotification n w) in
  notifications w' = notifications w ++ [n]
  /\ ((forall m, m ∈ notifications w ->
         Notification.ID m <> Notification.ID n) ->
      fst (GetNotification (Notification.ID n) w') = inl n)
  /\ (forall id m, fst (GetNotification id w) = inl m ->
        fst (GetNotification id w') = inl m).
Proof.
  intros w'. subst w'.
  assert (Hns : notifications (snd (AddNotification n w)) = notifications w ++ [n]).
  { unfold notifications, AddNotification. rewrite Save_Data. reflexivity. }
  split; [exact Hns |]. split.
  - intros Hfresh. rewrite GetNotification_firstWithID, Hns, firstWithID_app.
    assert (Hnone : firstWithID (Notification.ID n) (notifications w) = None).
    { apply firstWithID_None, Forall_forall. exact Hfresh. }
    rewrite Hnone. unfold firstWithID. simpl. rewrite String.eqb_refl.
    reflexivity.
  - intros id m. rewrite !GetNotification_firstWithID, Hns, firstWithID_app.
    destruct (firstWithID id (notifications w)); [trivial | discriminate].
Qed.

End StoreMore.

(** A save over a file that was edited behind the store's back. *)
Lemma Save_overwrites_unseen_edit_witness :
  let kept := Sample.reminder "a" (Sample.at_ 1000 0) 0 3 "30m" in
  let w := mkWorld (Sample.holding 9 "[{}]")
             (mkStore (mkAppSchema (Sample.credentials 3 "30m") [kept]) 5) in
  inSync w = false
  /\ file (disk (snd (Save (json := Sample.codec) w))) = Regular 9 "{}"
  /\ fst (GetAllNotifications (json := Sample.codec)
            (snd (Save (json := Sample.codec) w))) = [kept].
Proof.
  intros kept w.
  destruct (Save_overwrites_unseen_edit (json := Sample.codec) w "{}")
    as (_ & Hf & _ & _ & _ & _ & Hall); try reflexivity.
  split; [reflexivity |]. split; [exact Hf | exact Hall].
Defined.

Section StoreByID.
Context {json : JSON}.

Lemma firstWithID_middle (id : string) (pre post : list Notification.t)
    (x : Notification.t) :
  firstWithID id (pre ++ x :: post)
  = match firstWithID id pre with
    | Some n => Some n
    | None => if String.eqb (Notification.ID x) id then Some x
              else firstWithID id post
    end.
Proof. rewrite firstWithID_app. reflexivity. Qed.


(** X5.  [DeleteNotification] removes the first record carrying the ID and
    no other: the records before and after it stay in their order, every
    other ID yields the record it yielded, and the ID itself yields the next
    record that carries it, or the not-found error when there is none. *)
Theorem DeleteNotification_removes_first (w : World) (id : string)
    (old : Notification.t) (pre post : list Notification.t) :
  notifications w = pre ++ old :: post ->
  Forall (fun m => Notification.ID m <> id) pre ->
  Notification.ID old = id ->
  let w' := snd (DeleteNotification id w) in
  notifications w' = pre ++ post
  /\ Settings (Data (store w')) = Settings (Data (store w))
  /\ (forall id', id' <> id ->
        fst (GetNotification id' w') = fst (GetNotification id' w))
  /\ fst (GetNotification id w')
     = match firstWithID id post with
       | Some n => inl n
       | None => inr ErrNotFound
       end.
Proof.
  intros Hns Hpre Hold w'. subst w'.
  assert (Hidx : indexOfID id (notifications w) = Some (length pre)).
  { rewrite Hns. apply indexOfID_split; assumption. }
  unfold DeleteNotification. rewrite Hidx.
  assert (Hcut : take (length pre) (notifications w)
                 ++ drop (S (length pre)) (notifications w) = pre ++ post).
  { rewrite Hns, take_app_length.
    replace (S (length pre)) with (length pre + 1)%nat by lia.
    rewrite drop_app_add. reflexivity. }
  rewrite Hcut.
  assert (Hns' : notifications (snd (Save (with_Notifications (pre ++ post) w)))
                 = pre ++ post).
  { unfold notifications. rewrite Save_Data. reflexivity. }
  split; [exact Hns' |]. split; [rewrite Save_Data; reflexivity |].
  assert (Hnone : firstWithID id pre = None)
    by (apply firstWithID_None; exact Hpre).
  split.
  - intros id' Hne. rewrite !GetNotification_firstWithID, Hns', Hns.
    rewrite firstWithID_middle, firstWithID_app.
    destruct (String.eqb_spec (Notification.ID old) id') as [E | _];
      [congruence | reflexivity].
  - rewrite GetNotification_firstWithID, Hns', firstWithID_app, Hnone.
    reflexivity.
Qed.

End StoreByID.


Lemma DeleteNotification_removes_first_witness :
  let a := Sample.reminder "a" (Sample.at_ 1000 0) 0 3 "30m" in
  let b1 := Sample.reminder "b" (Sample.at_ 2000 0) 1 3 "30m" in
  let b2 := Sample.reminder "b" (Sample.at_ 3000 0) 2 3 "30m" in
  let w := Sample.inMemory (Sample.credentials 3 "30m") [a; b1; b2] in
  notifications (snd (DeleteNotification (json := Sample.codec) "b" w))
  = [a; b2]
  /\ fst (GetNotification "b"
            (snd (DeleteNotification (json := Sample.codec) "b" w))) = inl b2.
Proof.
  intros a b1 b2 w.
  destruct (DeleteNotification_removes_first (json := Sample.codec)
              w "b" b1 [a] [b2]) as (Hns & _ & _ & Hget).
  - reflexivity.
  - constructor; [discriminate | constructor].
  - reflexivity.
  - split; [exact Hns |]. rewrite Hget. reflexivity.
Defined.

Section Reloading.
Context {json : JSON}.

(** X6.  [CheckDiskChanges] reports nothing and never writes: it leaves the
    disk alone, and does nothing at all when the file cannot be examined.
    Otherwise the time of the last load becomes the later of the file's
    modification time and the time recorded, also when the reload fails, so
    that checking twice is checking once: a file that could not be read is
    not read again until it is modified, and the data in memory stays what
    it was. *)
Theorem CheckDiskChanges_reload_once (w : World) :
  let w' := CheckDiskChanges w in
  CheckDiskChanges w' = w'
  /\ inSync w' = true
  /\ disk w' = disk w
  /\ (os_Stat (disk w) = None -> w' = w)
  /\ (forall m, os_Stat (disk w) = Some m ->
        lastLoadedTime (store w') = Z.max m (lastLoadedTime (store w)))
  /\ (forall m, file (disk w) = Unreadable m ->
        Data (store w') = Data (store w)).
Proof.
  intros w'. subst w'.
  pose proof (CheckDiskChanges_syncs w) as Hs.
  split; [apply CheckDiskChanges_inSync; exact Hs |]. split; [exact Hs |].
  unfold CheckDiskChanges.
  destruct (os_Stat (disk w)) as [m |] eqn:Hm.
  - destruct (GoTime.After m (lastLoadedTime (store w))) eqn:Ha;
      unfold GoTime.After in Ha.
    + split; [apply Load_disk |]. split; [discriminate |]. split.
      * intros m' Hm'. injection Hm' as <-.
        rewrite (Load_lastLoadedTime w m Hm). apply Z.ltb_lt in Ha. lia.
      * intros m' Hf. unfold Load, os_Stat, os_ReadFile. rewrite Hf. simpl.
        rewrite Hf. reflexivity.
    + split; [reflexivity |]. split; [discriminate |]. split.
      * intros m' Hm'. injection Hm' as <-. apply Z.ltb_ge in Ha. lia.
      * reflexivity.
  - split; [reflexivity |]. split; [reflexivity |]. split; [discriminate |].
    reflexivity.
Qed.

Lemma backfill_fields (t : Z) (i : string) (n : Notification.t) :
  backfill t i n
  = Notification.mk (Notification.ID n) (Notification.Content n)
      (Notification.ScheduledTime n) (Notification.Status n)
      (Notification.SendsCount n) (Notification.LastPushTime n)
      (if Notification.RepeatTimes n =? 0 then t else Notification.RepeatTimes n)
      (if String.eqb (Notification.RepeatInterval n) "" then i
       else Notification.RepeatInterval n).
Proof.
  destruct n as [id c st status k l times interval]. unfold backfill. simpl.
  destruct (times =? 0); simpl; destruct (String.eqb interval "");
    reflexivity.
Qed.

Lemma backfill_idempotent (t : Z) (i : string) (n : Notification.t) :
  t <> 0 -> i <> "" -> backfill t i (backfill t i n) = backfill t i n.
Proof.
  intros Ht Hi. rewrite (backfill_fields t i (backfill t i n)).
  rewrite (backfill_fields t i n). simpl.
  apply Z.eqb_neq in Ht. apply String.eqb_neq in Hi.
  destruct (Z.eqb_spec (Notification.RepeatTimes n) 0) as [E | NE].
  - rewrite Ht.
    destruct (String.eqb (Notification.RepeatInterval n) "") eqn:Ei;
      [rewrite Hi | rewrite Ei]; reflexivity.
  - apply Z.eqb_neq in NE. rewrite NE.
    destruct (String.eqb (Notification.RepeatInterval n) "") eqn:Ei;
      [rewrite Hi | rewrite Ei]; reflexivity.
Qed.

Lemma migrate_fields (d : AppSchema) :
  let times := if Settings.RepeatTimes (Settings d) =? 0 then 3
               else Settings.RepeatTimes (Settings d) in
  let interval := if String.eqb (Settings.RepeatInterval (Settings d)) ""
                  then "30m" else Settings.RepeatInterval (Settings d) in
  (times <> 0 /\ interval <> "")
  /\ migrate d
     = mkAppSchema
         (Settings.mk (Settings.PushoverToken (Settings d))
            (Settings.PushoverUser (Settings d)) times interval
            (Settings.Password (Settings d)))
         (map (backfill times interval) (Notifications d)).
Proof.
  intros times interval. subst times interval.
  destruct d as [[tok usr t0 i0 pw] ns]. unfold migrate. simpl.
  split.
  - split.
    + destruct (Z.eqb_spec t0 0); [discriminate | assumption].
    + destruct (String.eqb_spec i0 ""); [discriminate | assumption].
  - destruct (t0 =? 0) eqn:Et; cbn; destruct (String.eqb i0 "") eqn:Ei; cbn;
      rewrite ?Et, ?Ei; cbn; rewrite ?Et, ?Ei; reflexivity.
Qed.

Lemma migrate_idempotent (d : AppSchema) : migrate (migrate d) = migrate d.
Proof.
  destruct (migrate_fields d) as [[Ht Hi] Hd]. cbv zeta in Ht, Hi, Hd.
  destruct (migrate_fields (migrate d)) as [_ Hdd]. cbv zeta in Hdd.
  rewrite Hdd. clear Hdd. rewrite Hd.
  cbn [Settings Notifications Settings.RepeatTimes Settings.RepeatInterval
       Settings.PushoverToken Settings.PushoverUser Settings.Password].
  apply Z.eqb_neq in Ht. apply String.eqb_neq in Hi. rewrite Ht, Hi.
  apply Z.eqb_neq in Ht. apply String.eqb_neq in Hi.
  f_equal. rewrite map_map. apply map_ext. intros n.
  apply backfill_idempotent; assumption.
Qed.

(** X7.  When the file decodes as an AppSchema, [Load] stores the decoded
    value after two steps.  A repeat count of zero and an empty interval in
    the settings become 3 and 30m; the credentials and the password are
    taken as decoded.  The records keep their number, their order and every
    field, except that a repeat count of zero and an empty interval are
    filled with the (defaulted) values of the settings, a record's own
    values being kept.  Doing both steps again changes nothing. *)
Theorem Load_migrates (w : World) (m : GoTime.Time) (data : string)
    (d : AppSchema) :
  file (disk w) = Regular m data -> data <> "" ->
  Unmarshal_AppSchema data (Data (store w)) = (d, true) ->
  let times := if Settings.RepeatTimes (Settings d) =? 0 then 3
               else Settings.RepeatTimes (Settings d) in
  let interval := if String.eqb (Settings.RepeatInterval (Settings d)) ""
                  then "30m" else Settings.RepeatInterval (Settings d) in
  Load w = (None, with_Data (migrate d) (with_lastLoadedTime m w))
  /\ Settings (migrate d)
     = Settings.mk (Settings.PushoverToken (Settings d))
         (Settings.PushoverUser (Settings d)) times interval
         (Settings.Password (Settings d))
  /\ length (Notifications (migrate d)) = length (Notifications d)
  /\ (forall i n0, Notifications d !! i = Some n0 ->
        Notifications (migrate d) !! i
        = Some (Notification.mk (Notification.ID n0) (Notification.Content n0)
                  (Notification.ScheduledTime n0) (Notification.Status n0)
                  (Notification.SendsCount n0) (Notification.LastPushTime n0)
                  (if Notification.RepeatTimes n0 =? 0 then times
                   else Notification.RepeatTimes n0)
                  (if String.eqb (Notification.RepeatInterval n0) ""
                   then interval else Notification.RepeatInterval n0)))
  /\ migrate (migrate d) = migrate d.
Proof.
  intros Hf Hne Hd times interval.
  split.
  { rewrite (Load_content w m data Hf Hne), Hd. reflexivity. }
  destruct (migrate_fields d) as [_ Hmig]. cbv zeta in Hmig.
  fold times interval in Hmig.
  split; [rewrite Hmig; reflexivity |].
  split; [rewrite Hmig; simpl; apply length_map |].
  split; [| apply migrate_idempotent].
  intros i n0 Hi. rewrite Hmig. simpl.
  rewrite list_lookup_fmap, Hi. simpl. rewrite backfill_fields. reflexivity.
Qed.

(** X8.  Let a save succeed, and let the document written decode, into the
    store that wrote it, as the data that was encoded.  Then loading the
    file again returns no error and leaves in memory the saved data after
    the defaults and the migration of [Load]; when the data had itself come
    out of a load, it leaves exactly the saved data. *)
Theorem Save_then_Load (w : World) (data : string) :
  MarshalIndent (Data (store w)) = Some data ->
  data <> "" ->
  writable (disk w) = true ->
  Unmarshal_AppSchema data (Data (store w)) = (Data (store w), true) ->
  let w1 := snd (Save w) in
  fst (Load w1) = None
  /\ Data (store (snd (Load w1))) = migrate (Data (store w))
  /\ disk (snd (Load w1)) = disk w1
  /\ (forall d0, Data (store w) = migrate d0 ->
        Data (store (snd (Load w1))) = Data (store w)).
Proof.
  intros Hm Hne Hw Hback w1. subst w1.
  rewrite (Save_succeeds w data Hm Hw). simpl.
  set (w1 := mkWorld (mkDisk (Regular (clock (disk w)) data) true
                             (clock (disk w)))
                     (mkStore (Data (store w)) (clock (disk w)))).
  assert (HL : Load w1
               = (None, with_Data (migrate (Data (store w)))
                          (with_lastLoadedTime (clock (disk w)) w1))).
  { rewrite (Load_content w1 (clock (disk w)) data eq_refl Hne).
    change (Data (store w1)) with (Data (store w)). rewrite Hback.
    reflexivity. }
  rewrite HL. simpl. split; [reflexivity |]. split; [reflexivity |].
  split; [reflexivity |].
  intros d0 ->. apply migrate_idempotent.
Qed.

End Reloading.

(** A store whose record lacks a policy of its own, reloaded from a file
    holding the empty object (which sets no field): the defaults and the
    migration of [Load] are applied to what the store held. *)
Lemma Load_migrates_witness :
  let bare := Notification.mk "a" "water the plants" (Sample.at_ 1000 0)
                StatusPending 0 GoTime.zero 0 "" in
  let w := mkWorld (Sample.holding 4 "{}")
             (mkStore (mkAppSchema Settings.zero [bare]) 0) in
  Load (json := Sample.codec) w
  = (None,
     mkWorld (Sample.holding 4 "{}")
       (mkStore (mkAppSchema defaultSettings
                   [Notification.with_RepeatInterval "30m"
                      (Notification.with_RepeatTimes 3 bare)]) 4)).
Proof.
  intros bare w.
  destruct (Load_migrates (json := Sample.codec) w 4 "{}"
              (mkAppSchema Settings.zero [bare])) as (HL & _);
    [reflexivity | discriminate | reflexivity |].
  rewrite HL. reflexivity.
Defined.

(** A store saving to a writable disk and loading its own file. *)
Lemma Save_then_Load_witness :
  let n := Sample.reminder "a" (Sample.at_ 1000 0) 1 3 "30m" in
  let w := Sample.inMemory (Sample.credentials 3 "30m") [n] in
  let w1 := snd (Save (json := Sample.codec) w) in
  fst (Load (json := Sample.codec) w1) = None
  /\ Data (store (snd (Load (json := Sample.codec) w1)))
     = mkAppSchema (Sample.credentials 3 "30m") [n].
Proof.
  intros n w w1.
  destruct (Save_then_Load (json := Sample.codec) w "{}")
    as (Hok & HD & _); try reflexivity; [discriminate |].
  split; [exact Hok |]. etransitivity; [exact HD | reflexivity].
Defined.


(** * Further properties of the evaluation pass *)

Section PassMore.
Context {json : JSON} {syntax : DurationSyntax} {delivery : Delivery}.

(** Every way through the body of the loop. *)
Lemma body_cases (cl : Client) (now : GoTime.Time) (n : Notification.t)
    (v : Vars) :
  let n' := fst (body cl now n v) in
  let v' := snd (body cl now n v) in
  let sent := SendMessage (Token cl) (User cl) "Reminder"
                (Notification.Content n) (port v) in
  (isDue now n = false /\ n' = n
   /\ v' = mkVars (port v) (saveNeeded v)
                  (track (nextSendTime n) (earliestNext v)))
  \/ (isDue now n = true /\ effectiveTimes n <= Notification.SendsCount n
      /\ n' = Notification.with_Status StatusDone n
      /\ v' = mkVars (port v) true (earliestNext v))
  \/ (isDue now n = true /\ Notification.SendsCount n < effectiveTimes n
      /\ fst sent = false
      /\ n' = Notification.with_LastPushTime now n
      /\ v' = mkVars (snd sent) true (track (anchored n) (earliestNext v)))
  \/ (isDue now n = true /\ Notification.SendsCount n < effectiveTimes n
      /\ fst sent = true
      /\ effectiveTimes n <= Notification.SendsCount (delivered now n)
      /\ n' = Notification.with_Status StatusDone (delivered now n)
      /\ v' = mkVars (snd sent) true (earliestNext v))
  \/ (isDue now n = true /\ Notification.SendsCount n < effectiveTimes n
      /\ fst sent = true
      /\ Notification.SendsCount (delivered now n) < effectiveTimes n
      /\ n' = delivered now n
      /\ v' = mkVars (snd sent) true
                (track (anchored (delivered now n)) (earliestNext v))).
Proof.
  intros n' v' sent. subst n' v' sent.
  destruct (isDue now n) eqn:Hd.
  - destruct (Z.lt_ge_cases (Notification.SendsCount n) (effectiveTimes n))
      as [Hlt | Hge].
    + destruct (SendMessage (Token cl) (User cl) "Reminder"
                  (Notification.Content n) (port v)) as [ok p'] eqn:Hsend.
      destruct ok.
      * rewrite (body_delivered cl now n v p' Hd Hlt Hsend). cbv zeta.
        fold (delivered now n).
        destruct (Z.geb_spec (Notification.SendsCount (delivered now n))
                    (effectiveTimes n)) as [Hdone | Hmore].
        -- right. right. right. left. simpl. repeat split; assumption.
        -- right. right. right. right. simpl. repeat split; assumption.
      * rewrite (body_failed cl now n v p' Hd Hlt Hsend).
        right. right. left. simpl. repeat split; assumption.
    + rewrite (body_exhausted cl now n v Hd Hge).
      right. left. repeat split; assumption.
  - rewrite (body_not_due cl now n v Hd). left. repeat split.
Qed.

End PassMore.

Section PassLevel.
Context {json : JSON} {syntax : DurationSyntax} {delivery : Delivery}.





(** X9.  Without both delivery credentials a pass does nothing beyond
    bringing the store in sync: it calls the transport for no record, also
    not for an overdue one, changes no record, does not save, does not call
    the callback, and returns the zero time, on which [Start] stops the
    timer. *)
Theorem pass_idle_without_credentials (wk : Worker) (now now' : GoTime.Time)
    (w : World) (p : Port) :
  ~ configured (Settings (Data (store (CheckDiskChanges w)))) ->
  checkAndProcess wk now w p
  = mkPass wk (CheckDiskChanges w) p false GoTime.zero
  /\ snd (iteration wk now now' w p) = Stopped.
Proof.
  intros Hc.
  assert (E : checkAndProcess wk now w p
              = mkPass wk (CheckDiskChanges w) p false GoTime.zero).
  { rewrite checkAndProcess_syncs.
    apply checkAndProcess_idle; [apply CheckDiskChanges_syncs | exact Hc]. }
  split; [exact E |]. unfold iteration. rewrite E. reflexivity.
Qed.



End PassLevel.

Section PassRecords.
Context {json : JSON} {syntax : DurationSyntax} {delivery : Delivery}.

Lemma incr_exact (k : Z) : GoTime.inInt64 (k + 1) -> GoTime.incr k = k + 1.
Proof. apply wrap64_inInt64. Qed.




(** X13.  In a pass over a configured store in sync with its file, let the
    transport deliver for a pending notification that is due and has
    attempts left.  The pass counts the delivery, records the time of the
    pass as the time of the last push, and marks the record Done exactly
    when the new count reaches the effective repeat count; the new count is
    the old one plus one (unless the old one is the largest [int]). *)
Theorem successful_delivery_advances (wk : Worker) (now : GoTime.Time)
    (w : World) (p : Port) (i : nat) (n : Notification.t) :
  inSync w = true ->
  configured (Settings (Data (store w))) ->
  notifications w !! i = Some n ->
  Notification.Status n <> StatusDone ->
  isDue now n = true ->
  Notification.SendsCount n < effectiveTimes n ->
  accepts (Settings (Data (store w))) (Notification.Content n) ->
  let r := checkAndProcess wk now w p in
  notifications (world r) !! i
  = Some (if effectiveTimes n <=? Notification.SendsCount (delivered now n)
          then Notification.with_Status StatusDone (delivered now n)
          else delivered now n)
  /\ Notification.LastPushTime (delivered now n) = now
  /\ (GoTime.inInt64 (Notification.SendsCount n + 1) ->
      Notification.SendsCount (delivered now n)
      = Notification.SendsCount n + 1).
Proof.
  intros Hs Hc Hi Hst Hd Hlt Hacc r. subst r.
  destruct (checkAndProcess_inSync wk now w p Hs Hc) as (Hns & _).
  rewrite Hns.
  destruct (sweep_lookup (clientOf (Settings (Data (store w)))) now
              (notifications w) (mkVars p false GoTime.zero) i n Hi) as [v0 E].
  rewrite E. apply String.eqb_neq in Hst. rewrite Hst.
  split; [| split; [reflexivity | intros Hfit; apply incr_exact; exact Hfit]].
  f_equal.
  pose proof (body_cases (clientOf (Settings (Data (store w)))) now n v0) as Hb.
  cbv zeta in Hb. specialize (Hacc (port v0)).
  change (Token (clientOf (Settings (Data (store w)))))
    with (Settings.PushoverToken (Settings (Data (store w)))) in Hb.
  change (User (clientOf (Settings (Data (store w)))))
    with (Settings.PushoverUser (Settings (Data (store w)))) in Hb.
  rewrite Hacc in Hb.
  destruct Hb as [(Hd' & _) | [(_ & Hge & _) | [(_ & _ & Hf & _)
    | [(_ & _ & _ & Hdone & -> & _) | (_ & _ & _ & Hmore & -> & _)]]]].
  - congruence.
  - lia.
  - discriminate.
  - apply Z.leb_le in Hdone. rewrite Hdone. reflexivity.
  - apply Z.leb_gt in Hmore. rewrite Hmore. reflexivity.
Qed.

End PassRecords.

Section NextWake.
Context {json : JSON} {syntax : DurationSyntax} {delivery : Delivery}.

Lemma track_min (s e : GoTime.Time) :
  0 < s -> 0 <= e -> track s e = if e =? 0 then s else Z.min s e.
Proof.
  intros Hs He. unfold track, GoTime.IsZero, GoTime.Before.
  destruct (Z.eqb_spec e 0); simpl; [reflexivity |].
  destruct (Z.ltb_spec s e); lia.
Qed.

Lemma earliestSlot_spec (ns : list Notification.t) :
  match earliestSlot ns with
  | Some t =>
      (exists n, n ∈ ns /\ isPending n = true /\ nextSendTime n = t)
      /\ forall n, n ∈ ns -> isPending n = true -> t <= nextSendTime n
  | None => forall n, n ∈ ns -> isPending n = false
  end.
Proof.
  induction ns as [| m rest IH]; simpl.
  - intros n Hn. inversion Hn.
  - destruct (isPending m) eqn:Hm.
    + destruct (earliestSlot rest) as [t |].
      * destruct IH as [(n & Hin & Hp & Ht) Hmin]. split.
        -- destruct (Z.le_gt_cases (nextSendTime m) t).
           ++ exists m. split; [left |]. split; [exact Hm | lia].
           ++ exists n. split; [right; exact Hin |]. split; [exact Hp | lia].
        -- intros n' Hn' Hp'. apply elem_of_cons in Hn'.
           destruct Hn' as [-> | Hn']; [lia |].
           specialize (Hmin n' Hn' Hp'). lia.
      * split.
        -- exists m. split; [left |]. split; [exact Hm | reflexivity].
        -- intros n' Hn' Hp'. apply elem_of_cons in Hn'.
           destruct Hn' as [-> | Hn']; [lia |].
           rewrite (IH n' Hn') in Hp'. discriminate.
    + destruct (earliestSlot rest) as [t |].
      * destruct IH as [(n & Hin & Hp & Ht) Hmin]. split.
        -- exists n. split; [right; exact Hin |]. split; assumption.
        -- intros n' Hn' Hp'. apply elem_of_cons in Hn'.
           destruct Hn' as [-> | Hn']; [congruence |]. apply Hmin; assumption.
      * intros n' Hn'. apply elem_of_cons in Hn'.
        destruct Hn' as [-> | Hn']; [exact Hm | apply IH; exact Hn'].
Qed.

(** The candidate a sweep ends with, from the one it starts with and the
    slots of the records it leaves pending. *)
Lemma sweep_earliestSlot (cl : Client) (now : GoTime.Time)
    (ns : list Notification.t) (v : Vars) :
  Forall afterZero ns -> 0 <= earliestNext v ->
  earliestNext (snd (sweep cl now ns v))
  = match earliestSlot (fst (sweep cl now ns v)) with
    | Some t => if earliestNext v =? 0 then t else Z.min (earliestNext v) t
    | None => earliestNext v
    end
  /\ Forall (fun n' => isPending n' = true -> 0 < nextSendTime n')
            (fst (sweep cl now ns v)).
Proof.
  revert v. induction ns as [| m rest IH]; intros v Hall He; simpl.
  - split; [reflexivity | constructor].
  - inversion Hall as [| ? ? Hm Hrest]; subst.
    destruct (String.eqb (Notification.Status m) StatusDone) eqn:Est.
    + destruct (IH v Hrest He) as [E Hpos].
      destruct (sweep cl now rest v) as [rest' v']. simpl in *.
      unfold isPending at 1. rewrite Est. simpl. split; [exact E |].
      constructor; [| exact Hpos]. unfold isPending. rewrite Est. discriminate.
    + pose proof (body_cases cl now m v) as Hb. cbv zeta in Hb.
      destruct Hm as [Hpos1 Hpos2].
      assert (Hpend : forall x, Notification.Status x = Notification.Status m ->
                                isPending x = true).
      { intros x Hx. unfold isPending. rewrite Hx, Est. reflexivity. }
      destruct (body cl now m v) as [m' v1]. simpl in Hb.
      assert (Hstep :
        (isPending m' = false /\ earliestNext v1 = earliestNext v)
        \/ (isPending m' = true /\ 0 < nextSendTime m'
            /\ earliestNext v1 = track (nextSendTime m') (earliestNext v))).
      { destruct Hb as [(_ & -> & ->) | [(_ & _ & -> & ->)
          | [(_ & _ & _ & -> & ->) | [(_ & _ & _ & _ & -> & ->)
          | (_ & _ & _ & _ & -> & ->)]]]]; simpl.
        - right. rewrite nextSendTime_anchored.
          split; [apply Hpend; reflexivity |]. split; [exact Hpos1 | reflexivity].
        - left. split; reflexivity.
        - right. rewrite nextSendTime_anchored.
          split; [apply Hpend; reflexivity |]. split; [exact Hpos1 | reflexivity].
        - left. split; reflexivity.
        - right. rewrite nextSendTime_anchored.
          split; [apply Hpend; reflexivity |]. split; [exact Hpos2 | reflexivity]. }
      assert (He1 : 0 <= earliestNext v1).
      { destruct Hstep as [[_ ->] | (_ & Hp & ->)]; [exact He |].
        pose proof (track_pos _ _ Hp He). lia. }
      destruct (IH v1 Hrest He1) as [E Hpos].
      destruct (sweep cl now rest v1) as [rest' v2]. simpl in *.
      split.
      * rewrite E. destruct Hstep as [[Hnp ->] | (Hp & Hs & ->)].
        -- rewrite Hnp. reflexivity.
        -- rewrite Hp. rewrite (track_min _ _ Hs He).
           destruct (earliestSlot rest') as [t |];
             destruct (Z.eqb_spec (earliestNext v) 0) as [E0 | N0];
             repeat match goal with
               | |- context [?a =? 0] => destruct (Z.eqb_spec a 0)
               end; lia.
      * constructor; [| exact Hpos].
        destruct Hstep as [[Hnp _] | (_ & Hs & _)]; [congruence | intros _; exact Hs].
Qed.

(** X14.  When every slot lies after the zero time, the instant a pass over
    a configured store returns is the earliest of the slots of the records
    the pass leaves pending: no pending record has an earlier slot, some
    pending record has exactly that slot, and the zero time is returned
    exactly when no record is left pending. *)
Theorem nextRun_is_earliest_pending_slot (wk : Worker) (now : GoTime.Time)
    (w : World) (p : Port) :
  inSync w = true ->
  configured (Settings (Data (store w))) ->
  Forall afterZero (notifications w) ->
  let r := checkAndProcess wk now w p in
  let left := notifications (world r) in
  nextRun r = match earliestSlot left with
              | Some t => t
              | None => GoTime.zero
              end
  /\ (forall n, n ∈ left -> isPending n = true ->
        0 < nextRun r <= nextSendTime n)
  /\ (nextRun r <> GoTime.zero ->
        exists n, n ∈ left /\ isPending n = true
                  /\ nextSendTime n = nextRun r)
  /\ (nextRun r = GoTime.zero <->
        forall n, n ∈ left -> isPending n = false).
Proof.
  intros Hs Hc Hall r left. subst r left.
  destruct (checkAndProcess_inSync wk now w p Hs Hc) as (Hns & _ & Hnext & _).
  rewrite Hns, Hnext.
  destruct (sweep_earliestSlot (clientOf (Settings (Data (store w)))) now
              (notifications w) (mkVars p false GoTime.zero) Hall)
    as [E Hpos]; [simpl; reflexivity |].
  simpl in E. rewrite E. clear E.
  set (ns' := fst (sweep (clientOf (Settings (Data (store w)))) now
                     (notifications w) (mkVars p false GoTime.zero))) in *.
  pose proof (earliestSlot_spec ns') as Hspec.
  rewrite Forall_forall in Hpos.
  destruct (earliestSlot ns') as [t |].
  - destruct Hspec as [(n0 & Hin0 & Hp0 & Ht0) Hmin].
    assert (Htpos : 0 < t) by (rewrite <- Ht0; apply Hpos; assumption).
    split; [reflexivity |]. split.
    + intros n Hn Hp. specialize (Hmin n Hn Hp). lia.
    + split; [intros _; exists n0; repeat split; assumption |].
      unfold GoTime.zero. split; [lia |].
      intros Hnone. rewrite (Hnone n0 Hin0) in Hp0. discriminate.
  - split; [reflexivity |]. split.
    + intros n Hn Hp. rewrite (Hspec n Hn) in Hp. discriminate.
    + split; [intros Hne; exfalso; apply Hne; reflexivity |].
      split; [intros _; exact Hspec | reflexivity].
Qed.

End NextWake.

(** An overdue reminder in a store without credentials. *)
Lemma pass_idle_without_credentials_witness :
  let n := Sample.reminder "a" (Sample.at_ 1000 0) 0 3 "30m" in
  let w := Sample.inMemory defaultSettings [n] in
  let it := iteration (json := Sample.codec) (syntax := Sample.durations)
              (delivery := Sample.up) NewWorker (Sample.at_ 1005 0)
              (Sample.at_ 1005 1) w [] in
  notifications (world (fst it)) = [n]
  /\ transport (fst it) = []
  /\ snd it = Stopped.
Proof.
  intros n w it.
  destruct (pass_idle_without_credentials (json := Sample.codec)
              (syntax := Sample.durations) (delivery := Sample.up)
              NewWorker (Sample.at_ 1005 0) (Sample.at_ 1005 1) w [])
    as [E Ht].
  - intros [Htok _]. apply Htok. reflexivity.
  - split; [| split; [| exact Ht]].
    + change (fst it) with
        (checkAndProcess (json := Sample.codec) (syntax := Sample.durations)
           (delivery := Sample.up) NewWorker (Sample.at_ 1005 0) w []).
      rewrite E. reflexivity.
    + change (fst it) with
        (checkAndProcess (json := Sample.codec) (syntax := Sample.durations)
           (delivery := Sample.up) NewWorker (Sample.at_ 1005 0) w []).
      rewrite E. reflexivity.
Defined.




(** The second of three deliveries. *)
Lemma successful_delivery_advances_witness :
  let n := Sample.reminder "a" (Sample.at_ 1000 0) 1 3 "30m" in
  let w := Sample.inMemory (Sample.credentials 3 "30m") [n] in
  let r := checkAndProcess (json := Sample.codec) (syntax := Sample.durations)
             (delivery := Sample.up) NewWorker (Sample.at_ 1031 0) w [] in
  notifications (world r) !! 0%nat
  = Some (Notification.with_LastPushTime (Sample.at_ 1031 0)
            (Notification.with_SendsCount 2 n)).
Proof.
  intros n w r.
  destruct (successful_delivery_advances (json := Sample.codec)
              (syntax := Sample.durations) (delivery := Sample.up)
              NewWorker (Sample.at_ 1031 0) w [] 0%nat n)
    as (Hi & _);
    [reflexivity | split; discriminate | reflexivity | discriminate
    | reflexivity | reflexivity | intros q; reflexivity |].
  exact Hi.
Defined.

(** Three reminders, one of them Done: the pass at minute 1005 delivers the
    first and returns the slot of the third, the earliest left. *)
Lemma nextRun_is_earliest_pending_slot_witness :
  let a := Sample.reminder "a" (Sample.at_ 1000 0) 0 3 "30m" in
  let b := Notification.with_Status StatusDone
             (Sample.reminder "b" (Sample.at_ 900 0) 3 3 "30m") in
  let c := Sample.reminder "c" (Sample.at_ 1010 0) 0 3 "30m" in
  let w := Sample.inMemory (Sample.credentials 3 "30m") [a; b; c] in
  let r := checkAndProcess (json := Sample.codec) (syntax := Sample.durations)
             (delivery := Sample.up) NewWorker (Sample.at_ 1005 0) w [] in
  nextRun r = Sample.at_ 1010 0.
Proof.
  intros a b c w r.
  destruct (nextRun_is_earliest_pending_slot (json := Sample.codec)
              (syntax := Sample.durations) (delivery := Sample.up)
              NewWorker (Sample.at_ 1005 0) w [])
    as (Hmin & _);
    [reflexivity | split; discriminate | repeat constructor |].
  etransitivity; [exact Hmin | reflexivity].
Defined.


(** * Properties of the web layer *)

Import web.

(** ** Repeat intervals in the forms *)

Lemma submatch_digits_unit (v : string) (c : ascii) :
  allDigits v = true -> v <> "" -> isUnit c = true ->
  submatch (v ++ String c "") = Some (v, String c "").
Proof.
  induction v as [| d rest IH]; intros Hd Hne Hu; [contradiction |].
  simpl in Hd. apply andb_true_iff in Hd. destruct Hd as [Hd Hrest].
  destruct rest as [| d2 rest2].
  - simpl. rewrite Hd, Hu. reflexivity.
  - specialize (IH Hrest ltac:(discriminate) Hu).
    change ((String d (String d2 rest2) ++ String c "")%string)
      with (String d (String d2 rest2 ++ String c "")%string).
    remember (String d2 rest2 ++ String c "")%string as tail eqn:Et.
    simpl. destruct tail as [| t1 tail']; [discriminate |].
    destruct tail' as [| t2 tail''].
    + destruct rest2; discriminate.
    + rewrite Hd, IH. reflexivity.
Qed.

Lemma submatch_sound (s ds u : string) :
  submatch s = Some (ds, u) ->
  exists c, u = String c "" /\ s = (ds ++ String c "")%string
            /\ allDigits ds = true /\ ds <> "" /\ isUnit c = true.
Proof.
  revert ds u. induction s as [| c rest IH]; intros ds u Hs; [discriminate |].
  simpl in Hs. destruct rest as [| c2 rest2]; [discriminate |].
  destruct rest2 as [| c3 rest3].
  - destruct (isDigit c) eqn:Hd; destruct (isUnit c2) eqn:Hu;
      simpl in Hs; try discriminate.
    injection Hs as <- <-. exists c2. simpl. rewrite Hd.
    repeat split; try assumption; discriminate.
  - destruct (isDigit c) eqn:Hd; [| discriminate].
    destruct (submatch (String c2 (String c3 rest3))) as [[ds' u'] |] eqn:E;
      [| discriminate].
    injection Hs as <- <-.
    destruct (IH ds' u' eq_refl) as (c' & -> & Hrest & Hall & Hne & Hu).
    exists c'. simpl. rewrite Hd, Hall, Hrest.
    repeat split; try assumption; discriminate.
Qed.

Lemma decimal_bounds (s : string) (acc : Z) :
  allDigits s = true -> 0 <= acc -> 0 <= decimal acc s.
Proof.
  revert acc. induction s as [| c rest IH]; intros acc Hd Hacc; simpl; [exact Hacc |].
  simpl in Hd. apply andb_true_iff in Hd. destruct Hd as [Hc Hrest].
  apply IH; [exact Hrest |].
  unfold isDigit in Hc. apply andb_true_iff in Hc. destruct Hc as [Hlo _].
  apply Nat.leb_le in Hlo. lia.
Qed.

(** X15.  The two halves of an interval, as the forms show and send them.
    Joining a number written in digits with one of the units m, h, d and
    splitting the result gives the number and the unit back (the number 0
    when it does not fit an [int]); the empty form joins to 30m.  Splitting
    any string that is not digits followed by one of the three units gives
    30 and m, so an interval such as 90s, valid for the worker, is shown as
    30 minutes.  A number that comes out of a split is never negative. *)
Theorem interval_join_split :
  (forall v c,
     allDigits v = true -> v <> "" -> isUnit c = true ->
     parseRepeatInterval (combineRepeatInterval v (String c ""))
     = (if decimal 0 v <=? GoTime.maxDuration then decimal 0 v else 0,
        String c ""))
  /\ (combineRepeatInterval "" "" = "30m"
      /\ parseRepeatInterval "30m" = (30, "m")
      /\ parseRepeatInterval "90s" = (30, "m"))
  /\ (forall s value u,
        parseRepeatInterval s = (value, u) ->
        0 <= value <= GoTime.maxDuration
        /\ ((value = 30 /\ u = "m")
            \/ exists ds c, s = (ds ++ String c "")%string
                 /\ allDigits ds = true /\ ds <> "" /\ isUnit c = true
                 /\ u = String c "")).
Proof.
  split; [| split; [repeat split |]].
  - intros v c Hd Hne Hu. unfold combineRepeatInterval.
    apply String.eqb_neq in Hne. rewrite Hne. simpl String.eqb. cbv iota.
    apply String.eqb_neq in Hne.
    unfold parseRepeatInterval.
    rewrite (submatch_digits_unit v c Hd Hne Hu). reflexivity.
  - intros s value u. unfold parseRepeatInterval.
    destruct (submatch s) as [[ds u'] |] eqn:E.
    + destruct (submatch_sound s ds u' E) as (c & -> & Hs & Hall & Hne & Hu).
      intros Hv. injection Hv as <- <-.
      pose proof (decimal_bounds ds 0 Hall ltac:(lia)) as Hpos.
      split.
      * destruct (Z.leb_spec (decimal 0 ds) GoTime.maxDuration);
          [lia | vm_compute; split; discriminate].
      * right. exists ds, c. repeat split; assumption.
    + intros Hv. injection Hv as <- <-.
      split; [vm_compute; split; discriminate | left; split; reflexivity].
Qed.

(** ** Sessions and the first password *)

Section Access.
Context {json : JSON} {forms : Forms}.

Lemma with_world_same (s : Server) : with_world (web.world s) s = s.
Proof. destruct s. reflexivity. Qed.

Lemma GetSettings_inSync (w : World) :
  inSync w = true -> GetSettings w = (Settings (Data (store w)), w).
Proof.
  intros Hs. unfold GetSettings. rewrite (CheckDiskChanges_inSync w Hs).
  reflexivity.
Qed.

Lemma Save_ok (w : World) :
  fst (Save w) = None ->
  inSync (snd (Save w)) = true
  /\ Data (store (snd (Save w))) = Data (store w).
Proof.
  intros Hok. split; [| apply Save_Data].
  unfold Save in *. destruct (MarshalIndent _) as [data |]; [| discriminate].
  unfold os_WriteFile in *. destruct (writable (disk w)); [| discriminate].
  simpl. unfold inSync, os_Stat, GoTime.After. simpl.
  rewrite Z.ltb_irrefl. reflexivity.
Qed.

Lemma refresh_world (s : Server) :
  web.world (refresh s) = web.world s
  /\ sessions (refresh s) = sessions s.
Proof.
  unfold refresh, Refresh. destruct (trySend _); split; reflexivity.
Qed.

(** X16.  A login with the stored password opens a session under the
    identifier drawn and sets it as the cookie.  A request carrying that
    cookie passes the middleware up to and including 24 hours after the
    login and is sent to the login page later; after a logout with the
    cookie it is sent to the login page at once.  A login with another
    password opens no session and sets no cookie. *)
Theorem login_session_lifecycle (sessionToken : string)
    (now now' t : GoTime.Time) (r r' : Request)
    (next : Request -> Server -> Response * Server) (s : Server) :
  inSync (web.world s) = true ->
  let password := Settings.Password (Settings (Data (store (web.world s)))) in
  password <> "" ->
  Method r = "POST" ->
  FormValue r "password" = password ->
  sessionToken <> "" ->
  Cookie r' "session_token" = Some sessionToken ->
  let s1 := snd (handleLogin sessionToken now now' r s) in
  fst (handleLogin sessionToken now now' r s)
  = mkResponse (Redirect "/")
      (Some (sessionToken, GoTime.Add now' (24 * GoTime.Hour)))
  /\ (web.world s1 = web.world s /\ engine s1 = engine s)
  /\ (t <= GoTime.Add now (24 * GoTime.Hour) ->
      authMiddleware next t r' s1 = next r' s1)
  /\ (GoTime.Add now (24 * GoTime.Hour) < t ->
      authMiddleware next t r' s1 = (plain (Redirect "/login"), s1))
  /\ (let s2 := snd (handleLogout t r' s1) in
      authMiddleware next t r' s2 = (plain (Redirect "/login"), s2))
  /\ (forall r2, Method r2 = "POST" -> FormValue r2 "password" <> password ->
        handleLogin sessionToken now now' r2 s
        = (plain (Render "login.html"), s)).
Proof.
  intros Hs password Hpw Hm Hform Htok Hcookie s1. subst s1.
  assert (Hlogin : handleLogin sessionToken now now' r s
                   = (mkResponse (Redirect "/")
                        (Some (sessionToken,
                               GoTime.Add now' (24 * GoTime.Hour))),
                      mkServer (web.world s) (engine s)
                        (<[sessionToken := GoTime.Add now (24 * GoTime.Hour)]>
                           (sessions s)))).
  { unfold handleLogin. rewrite (GetSettings_inSync _ Hs), with_world_same.
    fold password. apply String.eqb_neq in Hpw. rewrite Hpw.
    rewrite Hm, Hform, !String.eqb_refl. reflexivity. }
  rewrite Hlogin. simpl fst. simpl snd.
  set (s1 := mkServer (web.world s) (engine s)
               (<[sessionToken := GoTime.Add now (24 * GoTime.Hour)]>
                  (sessions s))).
  assert (Hauth : forall s', web.world s' = web.world s ->
            authMiddleware next t r' s'
            = match sessions s' !! sessionToken with
              | None => (plain (Redirect "/login"), s')
              | Some expiry =>
                  if GoTime.After t expiry
                  then (plain (Redirect "/login"), s')
                  else next r' s'
              end).
  { intros s' Hw.
    assert (Hs' : inSync (web.world s') = true) by (rewrite Hw; exact Hs).
    unfold authMiddleware.
    rewrite (GetSettings_inSync _ Hs'), with_world_same, Hw.
    fold password. apply String.eqb_neq in Hpw. rewrite Hpw, Hcookie.
    apply String.eqb_neq in Htok. rewrite Htok. reflexivity. }
  split; [reflexivity |]. split; [split; reflexivity |].
  split; [| split; [| split]].
  - intros Hin. rewrite (Hauth s1 eq_refl). simpl.
    rewrite lookup_insert_eq. unfold GoTime.After.
    destruct (Z.ltb_spec (GoTime.Add now (24 * GoTime.Hour)) t); [lia |].
    reflexivity.
  - intros Hout. rewrite (Hauth s1 eq_refl). simpl.
    rewrite lookup_insert_eq. unfold GoTime.After.
    destruct (Z.ltb_spec (GoTime.Add now (24 * GoTime.Hour)) t); [| lia].
    reflexivity.
  - unfold handleLogout. rewrite Hcookie. cbv zeta. simpl snd.
    rewrite (Hauth (mkServer (web.world s1) (engine s1)
                      (delete sessionToken (sessions s1))) eq_refl).
    simpl. rewrite lookup_delete_eq. reflexivity.
  - intros r2 Hm2 Hbad. unfold handleLogin.
    rewrite (GetSettings_inSync _ Hs), with_world_same.
    fold password. apply String.eqb_neq in Hpw. rewrite Hpw, Hm2.
    apply String.eqb_neq in Hbad. rewrite Hbad. reflexivity.
Qed.


End Access.

(** A login with the stored password, a request with the cookie an hour
    later, and a login with a wrong password. *)
Lemma login_session_lifecycle_witness :
  let s := Browser.serving
             (Sample.inMemory (Sample.credentials 3 "30m") []) in
  let r := Browser.submit "POST" [("password", "secret")] in
  let next := fun (_ : Request) (x : Server) =>
                (plain (Render "index.html"), x) in
  let s1 := snd (handleLogin (json := Sample.codec) "abc" (Sample.at_ 0 0)
                   (Sample.at_ 0 1) r s) in
  authMiddleware (json := Sample.codec) next (Sample.at_ 60 0)
    (Browser.carrying "abc") s1
  = (plain (Render "index.html"), s1)
  /\ handleLogin (json := Sample.codec) "abc" (Sample.at_ 0 0)
       (Sample.at_ 0 1) (Browser.submit "POST" [("password", "guess")]) s
     = (plain (Render "login.html"), s).
Proof.
  intros s r next s1.
  destruct (login_session_lifecycle (json := Sample.codec) "abc"
              (Sample.at_ 0 0) (Sample.at_ 0 1) (Sample.at_ 60 0) r
              (Browser.carrying "abc") next s)
    as (_ & _ & Hin & _ & _ & Hbad);
    [reflexivity | discriminate | reflexivity | reflexivity | discriminate
    | reflexivity |].
  split.
  - apply Hin. vm_compute. discriminate.
  - apply Hbad; [reflexivity | discriminate].
Defined.


(** ** The handlers of the records and of the settings *)

Section Records.
Context {json : JSON} {forms : Forms}.

Lemma Truncate_Minute_idem (t : GoTime.Time) :
  GoTime.Truncate (GoTime.Truncate t GoTime.Minute) GoTime.Minute
  = GoTime.Truncate t GoTime.Minute.
Proof.
  rewrite (Truncate_Minute (GoTime.Truncate t GoTime.Minute)).
  rewrite Truncate_Minute_whole. lia.
Qed.

Lemma combineRepeatInterval_nonempty (value unit' : string) :
  combineRepeatInterval value unit' <> "".
Proof.
  unfold combineRepeatInterval.
  destruct value as [| c rest]; cbn; discriminate.
Qed.

Lemma refresh_engine (s : Server) :
  Refresh (engine s) = Returns (engine (refresh s)).
Proof.
  unfold refresh. destruct (Refresh (engine s)) as [wk |] eqn:E.
  - reflexivity.
  - unfold Refresh in E. destruct (trySend _); discriminate.
Qed.

(** The common end of the three handlers after a save that succeeded. *)
Lemma respond_with_list (w' : World) (s : Server) :
  inSync w' = true ->
  (let s0 := refresh (with_world w' s) in
   let '(_, w'') := GetAllNotifications (web.world s0) in
   (plain (RenderPartial "notifications_list"), with_world w'' s0))
  = (plain (RenderPartial "notifications_list"), refresh (with_world w' s)).
Proof.
  intros Hs. cbv zeta.
  destruct (refresh_world (with_world w' s)) as [Hw _]. simpl in Hw.
  destruct (refresh (with_world w' s)) as [w0 wk0 se0]. simpl in Hw.
  subst w0. unfold GetAllNotifications. simpl.
  rewrite (CheckDiskChanges_inSync w' Hs). reflexivity.
Qed.

(** A handler that ends with a save of [w1] and then the list. *)
Lemma saved_then_list (w1 : World) (s : Server) :
  disk w1 = disk (web.world s) ->
  let res :=
    match Save w1 with
    | (Some _, w') => (plain (Error 500), with_world w' s)
    | (None, w') =>
        let s0 := refresh (with_world w' s) in
        let '(_, w'') := GetAllNotifications (web.world s0) in
        (plain (RenderPartial "notifications_list"), with_world w'' s0)
    end in
  Data (store (web.world (snd res))) = Data (store w1)
  /\ listOrUntouched s res.
Proof.
  intros Hd res. subst res.
  pose proof (Save_Data w1) as HD.
  destruct (Save w1) as [[e |] w'] eqn:Esave.
  - pose proof (Save_failed w1 e) as Hsame. rewrite Esave in Hsame.
    simpl in Hsame, HD. specialize (Hsame eq_refl). subst w'.
    split; [reflexivity |]. split; [reflexivity |]. right.
    split; [exists 500; reflexivity |]. split; [reflexivity | exact Hd].
  - destruct (Save_ok w1) as [Hsync _]; [rewrite Esave; reflexivity |].
    rewrite Esave in Hsync. simpl in Hsync, HD.
    rewrite (respond_with_list w' s Hsync).
    destruct (refresh_world (with_world w' s)) as [Hw Hse].
    simpl in Hw, Hse.
    change (Data (store (web.world (refresh (with_world w' s))))
            = Data (store w1)
            /\ listOrUntouched s
                 (plain (RenderPartial "notifications_list"),
                  refresh (with_world w' s))).
    unfold listOrUntouched. cbn [fst snd].
    split; [rewrite Hw; exact HD |]. split; [exact Hse |]. left.
    split; [reflexivity |]. split; [rewrite Hw; exact Hsync |].
    apply (refresh_engine (with_world w' s)).
Qed.

Lemma firstWithID_split (id : string) (ns : list Notification.t)
    (n : Notification.t) :
  firstWithID id ns = Some n ->
  exists pre post,
    ns = pre ++ n :: post
    /\ Forall (fun m => Notification.ID m <> id) pre
    /\ Notification.ID n = id.
Proof.
  unfold firstWithID. induction ns as [| m rest IH]; simpl; [discriminate |].
  destruct (String.eqb_spec (Notification.ID m) id) as [E | NE].
  - intros [= <-]. exists [], rest. repeat split; [constructor | exact E].
  - intros Hf. destruct (IH Hf) as (pre & post & -> & Hpre & Hid).
    exists (m :: pre), post. repeat split; [| exact Hid].
    constructor; assumption.
Qed.

Lemma UpdateNotification_at (w : World) (updated old : Notification.t)
    (pre post : list Notification.t) :
  notifications w = pre ++ old :: post ->
  Forall (fun m => Notification.ID m <> Notification.ID updated) pre ->
  Notification.ID old = Notification.ID updated ->
  UpdateNotification updated w
  = Save (with_Notifications (pre ++ updated :: post) w).
Proof.
  intros Hns Hpre Hold. unfold UpdateNotification.
  rewrite Hns, (indexOfID_split _ pre post old Hpre Hold).
  rewrite <- (Nat.add_0_r (length pre)) at 1.
  rewrite insert_app_r. reflexivity.
Qed.

(** X18.  The record the create handler builds from a form with a date that
    parses is pending, was never sent, is scheduled on the whole minute at
    or before the date given, and carries a count that is not zero and an
    interval that is not empty, so that nothing is left to the fallbacks of
    the count; its first slot is its scheduled time.  The handler puts it
    at the end of the records in memory whether or not the save succeeds.
    A request that is not a POST, or whose date does not parse, is answered
    with 405 or 400 and changes nothing. *)
Theorem created_notification {syntax : DurationSyntax} (id : string)
    (t : GoTime.Time) (r : Request) (s : Server) :
  Method r = "POST" ->
  ParseInLocation (FormValue r "datetime") = Some t ->
  let n := newNotification id t r in
  let res := handleAPINotifications id r s in
  (Notification.ID n = id /\ Notification.Status n = StatusPending
   /\ Notification.SendsCount n = 0
   /\ Notification.LastPushTime n = GoTime.zero)
  /\ (Notification.ScheduledTime n mod GoTime.Minute = 0
      /\ Notification.ScheduledTime n <= t
         < Notification.ScheduledTime n + GoTime.Minute)
  /\ (Notification.RepeatTimes n <> 0
      /\ Notification.RepeatInterval n <> ""
      /\ effectiveTimes n = Notification.RepeatTimes n)
  /\ nextSendTime n = Notification.ScheduledTime n
  /\ notifications (web.world (snd res)) = notifications (web.world s) ++ [n]
  /\ Settings (Data (store (web.world (snd res))))
     = Settings (Data (store (web.world s)))
  /\ (forall r0,
        Method r0 <> "POST"
        \/ ParseInLocation (FormValue r0 "datetime") = None ->
        snd (handleAPINotifications id r0 s) = s
        /\ (fst (handleAPINotifications id r0 s) = plain (Error 405)
            \/ fst (handleAPINotifications id r0 s) = plain (Error 400))).
Proof.
  intros Hm Ht n res.
  assert (Htimes : Notification.RepeatTimes n <> 0).
  { subst n. unfold newNotification. cbn.
    destruct ((if negb (String.eqb (FormValue r "repeat_times") "")
               then match Sscanf_d (FormValue r "repeat_times") with
                    | Some k => k
                    | None => 0
                    end
               else 0) =? 0) eqn:E; [discriminate |].
    apply Z.eqb_neq in E. exact E. }
  split; [repeat split |]. split; [split |].
  - apply Truncate_Minute_whole.
  - apply Truncate_Minute_bounds.
  - split; [| split].
    + split; [exact Htimes |]. split.
      * apply combineRepeatInterval_nonempty.
      * unfold effectiveTimes. apply Z.eqb_neq in Htimes. rewrite Htimes.
        reflexivity.
    + unfold nextSendTime. change (Notification.SendsCount n) with 0. simpl.
      apply Truncate_Minute_idem.
    + assert (Hres : Data (store (web.world (snd res)))
                     = mkAppSchema (Settings (Data (store (web.world s))))
                         (notifications (web.world s) ++ [n])).
      { subst res. unfold handleAPINotifications.
        rewrite Hm, Ht. cbn [String.eqb Ascii.eqb Bool.eqb negb].
        unfold AddNotification. fold n.
        destruct (saved_then_list
                    (with_Notifications (notifications (web.world s) ++ [n])
                       (web.world s)) s eq_refl) as [HD _].
        exact HD. }
      split; [unfold notifications; rewrite Hres; reflexivity |].
      split; [rewrite Hres; reflexivity |].
      intros r0 Hbad. unfold handleAPINotifications.
      destruct (String.eqb_spec (Method r0) "POST") as [Ep | Np]; simpl.
      * destruct Hbad as [Hn | Hn]; [contradiction |]. rewrite Hn.
        split; [reflexivity | right; reflexivity].
      * split; [reflexivity | left; reflexivity].
Qed.

(** X19.  An edit keeps the progress of the record: its ID, status, count of
    sends and last push time are those it had, whatever the form holds.
    The scheduled time stays or becomes a whole minute, the count of
    repeats stays or becomes positive, and the interval is never empty.
    After the handler the ID yields the edited record, every other ID what
    it yielded, and the number of records is the same, whether or not the
    save succeeds.  For an ID no record carries the answer is 404 and
    nothing changes. *)
Theorem edit_keeps_progress (id : string) (r : Request) (s : Server)
    (n : Notification.t) :
  fst (GetNotification id (web.world s)) = inl n ->
  let e := editNotification r n in
  let res := handleAPIUpdateNotification id r s in
  (Notification.ID e = id /\ Notification.Status e = Notification.Status n
   /\ Notification.SendsCount e = Notification.SendsCount n
   /\ Notification.LastPushTime e = Notification.LastPushTime n)
  /\ (Notification.ScheduledTime e = Notification.ScheduledTime n
      \/ Notification.ScheduledTime e mod GoTime.Minute = 0)
  /\ (Notification.RepeatTimes e = Notification.RepeatTimes n
      \/ 0 < Notification.RepeatTimes e)
  /\ Notification.RepeatInterval e <> ""
  /\ fst (GetNotification id (web.world (snd res))) = inl e
  /\ (forall id', id' <> id ->
        fst (GetNotification id' (web.world (snd res)))
        = fst (GetNotification id' (web.world s)))
  /\ length (notifications (web.world (snd res)))
     = length (notifications (web.world s))
  /\ (forall id', fst (GetNotification id' (web.world s)) = inr ErrNotFound ->
        handleAPIUpdateNotification id' r s = (plain (Error 404), s)).
Proof.
  intros Hget e res.
  rewrite GetNotification_firstWithID in Hget.
  destruct (firstWithID id (notifications (web.world s))) as [n' |] eqn:Hf;
    [| discriminate].
  injection Hget as ->.
  destruct (firstWithID_split _ _ _ Hf) as (pre & post & Hns & Hpre & Hid).
  split; [repeat split; exact Hid |]. split; [| split; [| split]].
  - subst e. unfold editNotification. cbn.
    destruct (ParseInLocation _); [right | left; reflexivity].
    apply Truncate_Minute_whole.
  - subst e. unfold editNotification. cbn.
    destruct (Sscanf_d _) as [k |]; [| left; reflexivity].
    destruct (Z.ltb_spec 0 k); [right; assumption | left; reflexivity].
  - apply combineRepeatInterval_nonempty.
  - assert (Hres : notifications (web.world (snd res)) = pre ++ e :: post).
    { subst res. unfold handleAPIUpdateNotification.
      destruct (GetNotification id (web.world s)) as [[m | err] w0] eqn:Eg.
      - pose proof (GetNotification_firstWithID id (web.world s)) as Hg.
        rewrite Eg, Hf in Hg. simpl in Hg. injection Hg as ->.
        fold e.
        rewrite (UpdateNotification_at (web.world s) e n pre post Hns);
          [| change (Notification.ID e) with (Notification.ID n);
             rewrite Hid; exact Hpre
           | reflexivity].
        destruct (saved_then_list
                    (with_Notifications (pre ++ e :: post) (web.world s))
                    s eq_refl) as [HD _].
        exact (f_equal Notifications HD).
      - pose proof (GetNotification_firstWithID id (web.world s)) as Hg.
        rewrite Eg, Hf in Hg. discriminate. }
    assert (Hnone : firstWithID id pre = None)
      by (apply firstWithID_None; exact Hpre).
    split; [| split; [| split]].
    + rewrite GetNotification_firstWithID, Hres, firstWithID_middle, Hnone.
      replace (Notification.ID e) with id by (symmetry; exact Hid).
      rewrite String.eqb_refl. reflexivity.
    + intros id' Hne. rewrite !GetNotification_firstWithID, Hres, Hns.
      rewrite !firstWithID_middle.
      replace (Notification.ID e) with (Notification.ID n) by reflexivity.
      destruct (String.eqb_spec (Notification.ID n) id') as [E | _];
        [congruence | reflexivity].
    + rewrite Hres, Hns, !length_app. reflexivity.
    + intros id' Hmiss. unfold handleAPIUpdateNotification.
      destruct (GetNotification id' (web.world s)) as [[m | err] w0];
        [discriminate | reflexivity].
Qed.


End Records.

Section SettingsForm.
Context {json : JSON} {forms : Forms} {syntax : DurationSyntax}
        {delivery : Delivery}.


End SettingsForm.

(** A reminder created for minute 1000 (the form's date lying one second
    into that minute), with an empty form otherwise. *)
Lemma created_notification_witness :
  let s := Browser.serving
             (Sample.inMemory (Sample.credentials 3 "30m") []) in
  let r := Browser.submit "POST" [("datetime", "1000"); ("content", "tea")] in
  let res := handleAPINotifications (json := Sample.codec)
               (forms := Browser.fields) "a" r s in
  notifications (web.world (snd res))
  = [Notification.mk "a" "tea" (Sample.at_ 1000 0) StatusPending 0
       GoTime.zero 3 "30m"].
Proof.
  intros s r res.
  destruct (created_notification (json := Sample.codec)
              (forms := Browser.fields) (syntax := Sample.durations)
              "a" (Sample.at_ 1000 1) r s)
    as (_ & _ & _ & _ & Hns & _); [reflexivity | reflexivity |].
  etransitivity; [exact Hns | reflexivity].
Defined.

(** An edit of a reminder already sent once: the date moves to minute 2000,
    the count of repeats stays because the form's count is not positive. *)
Lemma edit_keeps_progress_witness :
  let n := Sample.reminder "a" (Sample.at_ 1000 0) 1 3 "30m" in
  let s := Browser.serving
             (Sample.inMemory (Sample.credentials 3 "30m") [n]) in
  let r := Browser.submit "PUT"
             [("datetime", "2000"); ("content", "tea");
              ("repeat_times", "0"); ("repeat_interval_value", "2");
              ("repeat_interval_unit", "h")] in
  let res := handleAPIUpdateNotification (json := Sample.codec)
               (forms := Browser.fields) "a" r s in
  fst (GetNotification "a" (web.world (snd res)))
  = inl (Notification.mk "a" "tea" (Sample.at_ 2000 0) StatusPending 1
           GoTime.zero 3 "2h").
Proof.
  intros n s r res.
  destruct (edit_keeps_progress (json := Sample.codec)
              (forms := Browser.fields) "a" r s n)
    as (_ & _ & _ & _ & Hget & _); [reflexivity |].
  etransitivity; [exact Hget | reflexivity].
Defined.



(** * The earlier worker *)

Section Earlier.
Context {syntax : DurationSyntax} {delivery : Delivery}.

Lemma track_after (now t e : GoTime.Time) :
  now < t -> e = GoTime.zero \/ now < e -> now < track t e.
Proof.
  intros Ht He. unfold track, GoTime.IsZero, GoTime.Before, GoTime.zero in *.
  destruct (Z.eqb_spec e 0) as [E0 | N0]; simpl; [exact Ht |].
  destruct (Z.ltb_spec t e); lia.
Qed.

Lemma earlier_body_after (settings : earlier.Settings.t)
    (now : GoTime.Time) (n : earlier.Notification.t) (v : Vars) :
  0 < earlier.retryInterval settings ->
  earliestNext v = GoTime.zero \/ now < earliestNext v ->
  let v' := snd (earlier.body settings now n v) in
  earliestNext v' = GoTime.zero \/ now < earliestNext v'.
Proof.
  intros Hi Hv v'. subst v'. unfold earlier.body.
  destruct (GoTime.Before now (earlier.nextSendTime settings n)) eqn:Eb;
    simpl.
  - right. apply track_after; [| exact Hv].
    unfold GoTime.Before in Eb. apply Z.ltb_lt in Eb. exact Eb.
  - destruct (earlier.Notification.SendsCount n
              <? earlier.maxRetries settings) eqn:El.
    + destruct (SendMessage _ _ _ _ _) as [ok p]. destruct ok; simpl.
      * destruct (_ >=? _); simpl; [exact Hv |].
        right. apply track_after; [unfold GoTime.Add; lia | exact Hv].
      * destruct (_ >=? _); simpl; [exact Hv |].
        right. apply track_after; [unfold GoTime.Add; lia | exact Hv].
    + destruct (earlier.Notification.SendsCount n
                >=? earlier.maxRetries settings) eqn:Eg; simpl; [exact Hv |].
      apply Z.ltb_ge in El. rewrite Z.geb_leb in Eg.
      apply Z.leb_gt in Eg. lia.
Qed.

(** X22.  The earlier loop always backs off.  With a retry interval above
    zero, every instant it tracks lies after the time of the pass, since a
    record still pending after an attempt is next looked at one interval
    after that attempt, failed or not.  So the instant returned is the zero
    time or lies after the pass, and the timer set from the same clock
    reading is stopped or armed with a duration above zero.  A refused
    delivery leaves the record with the time of the pass as its last push;
    when it had been sent before, it is next due one interval later. *)
Theorem earlier_loop_backs_off (settings : earlier.Settings.t)
    (now : GoTime.Time) (pending : list earlier.Notification.t) (v : Vars) :
  0 < earlier.retryInterval settings ->
  earliestNext v = GoTime.zero \/ now < earliestNext v ->
  let v' := snd (earlier.loop settings now pending v) in
  (earliestNext v' = GoTime.zero \/ now < earliestNext v')
  /\ (setTimer (earliestNext v') now = Stopped
      \/ exists d, setTimer (earliestNext v') now = Armed d /\ 0 < d)
  /\ (forall n u,
        earlier.nextSendTime settings n <= now ->
        earlier.Notification.SendsCount n < earlier.maxRetries settings ->
        fst (SendMessage (earlier.Settings.PushoverToken settings)
               (earlier.Settings.PushoverUser settings) "Reminder"
               (earlier.Notification.Content n) (port u)) = false ->
        let n' := fst (earlier.body settings now n u) in
        n' = earlier.Notification.with_LastPushTime now n
        /\ (earlier.Notification.SendsCount n <> 0 ->
            earlier.nextSendTime settings n'
            = GoTime.Add now (earlier.retryInterval settings))).
Proof.
  intros Hi Hv v'.
  assert (Hinv : earliestNext v' = GoTime.zero \/ now < earliestNext v').
  { subst v'. revert v Hv.
    induction pending as [| n rest IH]; intros v Hv; simpl; [exact Hv |].
    pose proof (earlier_body_after settings now n v Hi Hv) as Hb.
    destruct (earlier.body settings now n v) as [n' v1]. simpl in Hb.
    specialize (IH v1 Hb).
    destruct (earlier.loop settings now rest v1) as [rest' v2].
    exact IH. }
  split; [exact Hinv |]. split.
  - unfold setTimer, GoTime.IsZero.
    destruct Hinv as [E | Hlt]; [left; rewrite E; reflexivity |].
    destruct (Z.eqb_spec (earliestNext v') 0) as [E0 | N0];
      [left; reflexivity | right].
    assert (Hpos : 0 < GoTime.Sub (earliestNext v') now).
    { unfold GoTime.Sub, GoTime.minDuration, GoTime.maxDuration. lia. }
    eexists. split; [reflexivity |]. cbv zeta.
    destruct (Z.ltb_spec (GoTime.Sub (earliestNext v') now) 0); lia.
  - intros n u Hdue Hleft Hno n'.
    assert (Hn' : n' = earlier.Notification.with_LastPushTime now n).
    { subst n'. unfold earlier.body.
      assert (Eb : GoTime.Before now (earlier.nextSendTime settings n)
                   = false)
        by (unfold GoTime.Before; apply Z.ltb_ge; exact Hdue).
      rewrite Eb. simpl. apply Z.ltb_lt in Hleft. rewrite Hleft.
      destruct (SendMessage _ _ _ _ _) as [ok p]. simpl in Hno. subst ok.
      simpl. apply Z.ltb_lt in Hleft.
      destruct (Z.geb_spec (earlier.Notification.SendsCount n)
                  (earlier.maxRetries settings)); [lia | reflexivity]. }
    split; [exact Hn' |]. intros Hsent. rewrite Hn'.
    unfold earlier.nextSendTime. simpl.
    apply Z.eqb_neq in Hsent. rewrite Hsent. reflexivity.
Qed.

End Earlier.

(** One record sent once, due again, on a transport that is down. *)
Lemma earlier_loop_backs_off_witness :
  let settings := earlier.Settings.mk "token" "user" 3 "30m" "secret" in
  let n := earlier.Notification.mk "a" "tea" (Sample.at_ 1000 0)
             StatusPending 1 (Sample.at_ 1000 0) in
  let v := snd (earlier.loop (syntax := Sample.durations)
                  (delivery := Sample.down) settings (Sample.at_ 1030 7)
                  [n] (mkVars (delivery := Sample.down) []
                         false GoTime.zero)) in
  earliestNext v = GoTime.zero \/ Sample.at_ 1030 7 < earliestNext v.
Proof.
  intros settings n v.
  destruct (earlier_loop_backs_off (syntax := Sample.durations)
              (delivery := Sample.down) settings (Sample.at_ 1030 7) [n]
              (mkVars (delivery := Sample.down) [] false GoTime.zero))
    as (Hafter & _ & _); [reflexivity | left; reflexivity |].
  exact Hafter.
Defined.
